(** * Parchemin: the Scroll search / AJAX subsystem

    A shallow embedding of [src/parchemin.js].  A [Scroll] is the record of
    what the widget owns in the page: the options of its hidden <select>,
    the <li> rows of its dropdown list, its button, its search bar and
    status line.  The page around it ([Page]) holds what the browser keeps
    for it: the clock, the timer table behind [setTimeout]/[clearTimeout],
    the closure variable [debounce] of each listener installed by [addAjax],
    and the log of the network calls made through [fetch].  The registry
    ([Registry], module [Parchemin]) holds the Scrolls with the nodes they
    are bound to and the counter their ids are drawn from.

    Scope of the model.
    - A string is the sequence of the UTF-8 bytes of its text.  The
      built-ins [toLowerCase], [trim] and [length] of JavaScript strings are
      taken as given: they are the fields of the class [Builtins], every
      definition that calls them takes them from there, and the general
      theorems hold whatever they are.  [asciiBuiltins] gives them on ASCII
      text; it is what the examples, all on ASCII queries, are evaluated
      with.
    - A row is kept as the data its markup is built from (anchor id, label,
      checkbox, display).  The code writes rows through [innerHTML] without
      escaping: [rowOf] is what the HTML parser reads back for [plain] values
      and labels, and nothing is said of the rows of other text.
    - [selected] is the flag as the script sets it.  The choice a browser
      makes by itself in a single-choice <select> that has no selected
      option is not modelled: statements on the flags of options added by
      [addOptions] are made for multiple-choice widgets.
    - [addSearch] stands for the first call, which creates the search bar;
      a second call would add a second bar, which the record has no place
      for.
    - The status line and the search bar are fields of the record; they are
      written only by code that runs once [addSearch] has created them.
    - [console.error] output is not part of the state. *)

From Stdlib Require Import Ascii.
From stdpp Require Import gmap strings list fin_maps pretty.

(** ** JavaScript strings *)

Definition lower_ascii (c : ascii) : ascii :=
  let n := nat_of_ascii c in
  if ((65 <=? n) && (n <=? 90))%nat then ascii_of_nat (n + 32) else c.

(** [String.prototype.toLowerCase] on ASCII text. *)
Fixpoint asciiToLowerCase (s : string) : string :=
  match s with
  | EmptyString => EmptyString
  | String c s' => String (lower_ascii c) (asciiToLowerCase s')
  end.

Definition is_space (c : ascii) : bool :=
  let n := nat_of_ascii c in
  (((9 <=? n) && (n <=? 13)) || (n =? 32))%nat.

Fixpoint trimStart (s : string) : string :=
  match s with
  | EmptyString => EmptyString
  | String c s' => if is_space c then trimStart s' else s
  end.

(** Drops the trailing white space: the result is empty when everything
    from here on is white space. *)
Fixpoint trimEnd (s : string) : string :=
  match s with
  | EmptyString => EmptyString
  | String c s' =>
      match trimEnd s' with
      | EmptyString => if is_space c then EmptyString else String c EmptyString
      | t => String c t
      end
  end.

(** [String.prototype.trim] on ASCII text. *)
Definition asciiTrim (s : string) : string := trimEnd (trimStart s).

(** The built-ins of JavaScript strings that the widget calls and that
    depend on the characters of the text: [s.toLowerCase()], [s.trim()] and
    [s.length] (in UTF-16 code units). *)
Class Builtins : Type := {
  toLowerCase : string → string;
  trim : string → string;
  strLength : string → nat
}.

(** The built-ins on ASCII text, where a character is a byte and a code
    unit. *)
Definition asciiBuiltins : Builtins :=
  {| toLowerCase := asciiToLowerCase;
     trim := asciiTrim;
     strLength := String.length |}.

(** [hay.includes(needle)] *)
Fixpoint includes (hay needle : string) : bool :=
  String.prefix needle hay ||
  match hay with
  | EmptyString => false
  | String _ hay' => includes hay' needle
  end.

(** [s.split(sep)] for a one-character separator. *)
Fixpoint split (sep : ascii) (s : string) : list string :=
  match s with
  | EmptyString => [EmptyString]
  | String c s' =>
      if Ascii.eqb c sep then EmptyString :: split sep s'
      else match split sep s' with
           | [] => [String c EmptyString]
           | w :: ws => String c w :: ws
           end
  end.

(** ** JavaScript values and objects *)

(** The values a result record carries: strings and (integer) numbers. *)
Inductive JSVal : Type :=
| JStr (s : string)
| JNum (n : Z).

(** The string a DOM attribute or [textContent] setter stores. *)
Definition domString (v : JSVal) : string :=
  match v with
  | JStr s => s
  | JNum n => pretty n
  end.

(** A plain object: a finite map from property names to values. *)
Abbreviation JSObj := (gmap string JSVal).

(** A message table ([lang]): property name to text. *)
Abbreviation Lang := (gmap string string).

(** [getValueFromObject(obj, val, def)] *)
Definition getValueFromObject {V : Type} (obj : gmap string V) (val : string) (def : V) : V :=
  match obj !! val with
  | Some v => v
  | None => def
  end.

(** ** The data of a widget *)

(** An <option> of the hidden <select>. *)
Record Opt : Type := mkOpt {
  value : string;
  textContent : string;
  className : string;
  selected : bool
}.

(** A <li> of the dropdown list: the id of its anchor, the text of its
    anchor, its checkbox and whether [style.display] is ['none']. *)
Record Row : Type := mkRow {
  anchorId : string;
  label : string;
  checked : bool;
  hidden : bool
}.

(** The request part of the AJAX parameters. *)
Record Request : Type := mkRequest {
  url : string;
  type : string
}.

(** The AJAX parameters as the caller gives them: [minLength] and
    [maxResults] may be left out. *)
Record AjaxInput : Type := mkAjaxInput {
  in_request : Request;
  in_processData : list JSObj → list JSObj;
  in_minLength : option nat;
  in_maxResults : option nat
}.

(** The AJAX parameters once processed ([this.ajax]). *)
Record AjaxParams : Type := mkAjaxParams {
  request : Request;
  processData : list JSObj → list JSObj;
  minLength : nat;
  maxResults : nat
}.

(** [Parchemin.lang] as the constructor sets it, which is also the
    [defaults] table of [processLangParams]. *)
Definition defaultLang : Lang :=
  {[ "empty" := "Sélectionnez une valeur";
     "startSearch" := "Commencez à taper pour lancer la recherche...";
     "minLengthAlert" := "Veuillez taper au moins 4 caractères.";
     "searching" := "Recherche...";
     "noResults" := "Aucun résultat trouvé.";
     "error" := "Une erreur est survenue.";
     "result" := "résultat trouvé.";
     "results" := "résultats trouvés.";
     "searchPlaceholder" := "Rechercher un événement OL...";
     "moreResults" := "en tout, affinez votre recherche" ]}.

(** Reading a message, [this.lang.key]. *)
Definition msg (l : Lang) (key : string) : string :=
  getValueFromObject l key "undefined".

Record Scroll : Type := mkScroll {
  id : nat;
  options : list Opt;          (* this.node.options *)
  rows : list Row;             (* the <li> of .parcheminList *)
  multiple : bool;
  search : bool;
  ajax : option AjaxParams;    (* false, or the processed parameters *)
  lang : Lang;
  button : string;             (* .parcheminButton textContent *)
  placeholder : string;        (* .parcheminSearch placeholder *)
  searchValue : string;        (* .parcheminSearch value *)
  statusText : string;         (* .parcheminStatus textContent *)
  statusShown : bool           (* .parcheminStatus style.display *)
}.

(** Field updates. *)
Definition set_options (v : list Opt) (s : Scroll) : Scroll :=
  mkScroll (id s) v (rows s) (multiple s) (search s) (ajax s) (lang s)
           (button s) (placeholder s) (searchValue s) (statusText s) (statusShown s).
Definition set_rows (v : list Row) (s : Scroll) : Scroll :=
  mkScroll (id s) (options s) v (multiple s) (search s) (ajax s) (lang s)
           (button s) (placeholder s) (searchValue s) (statusText s) (statusShown s).
Definition set_search (v : bool) (s : Scroll) : Scroll :=
  mkScroll (id s) (options s) (rows s) (multiple s) v (ajax s) (lang s)
           (button s) (placeholder s) (searchValue s) (statusText s) (statusShown s).
Definition set_ajax (v : option AjaxParams) (s : Scroll) : Scroll :=
  mkScroll (id s) (options s) (rows s) (multiple s) (search s) v (lang s)
           (button s) (placeholder s) (searchValue s) (statusText s) (statusShown s).
Definition set_lang (v : Lang) (s : Scroll) : Scroll :=
  mkScroll (id s) (options s) (rows s) (multiple s) (search s) (ajax s) v
           (button s) (placeholder s) (searchValue s) (statusText s) (statusShown s).
Definition set_button (v : string) (s : Scroll) : Scroll :=
  mkScroll (id s) (options s) (rows s) (multiple s) (search s) (ajax s) (lang s)
           v (placeholder s) (searchValue s) (statusText s) (statusShown s).
Definition set_placeholder (v : string) (s : Scroll) : Scroll :=
  mkScroll (id s) (options s) (rows s) (multiple s) (search s) (ajax s) (lang s)
           (button s) v (searchValue s) (statusText s) (statusShown s).
Definition set_searchValue (v : string) (s : Scroll) : Scroll :=
  mkScroll (id s) (options s) (rows s) (multiple s) (search s) (ajax s) (lang s)
           (button s) (placeholder s) v (statusText s) (statusShown s).
Definition set_statusText (v : string) (s : Scroll) : Scroll :=
  mkScroll (id s) (options s) (rows s) (multiple s) (search s) (ajax s) (lang s)
           (button s) (placeholder s) (searchValue s) v (statusShown s).
Definition set_statusShown (v : bool) (s : Scroll) : Scroll :=
  mkScroll (id s) (options s) (rows s) (multiple s) (search s) (ajax s) (lang s)
           (button s) (placeholder s) (searchValue s) (statusText s) v.

(** ** Rendering and construction *)

(** The anchor id of the row of an option: ['parchemin-' + id + '-' + value]. *)
Definition anchorIdOf (i : nat) (v : string) : string :=
  "parchemin-" +:+ pretty i +:+ "-" +:+ v.

(** The row written for an option, by [getOptionsAsHTML] and by
    [addOptions]: a fresh <li>, unchecked and displayed.  The markup is
    built from the value and the label as they are and given to
    [innerHTML]: the anchor id and the label below are what the parser reads
    back when both are [plain]. *)
Definition rowOf (i : nat) (o : Opt) : Row :=
  mkRow (anchorIdOf i (value o)) (textContent o) false false.

(** [getOptionsAsHTML]: one row per option of the <select>, in order. *)
Definition getOptionsAsHTML (i : nat) (opts : list Opt) : list Row :=
  map (rowOf i) opts.

(** [new Scroll(node)]: [i] is the id drawn from the counter, [opts] and
    [mult] are the options and the [multiple] attribute of the node. *)
Definition init (i : nat) (opts : list Opt) (mult : bool) : Scroll :=
  {| id := i;
     options := opts;
     rows := getOptionsAsHTML i opts;
     multiple := mult;
     search := false;
     ajax := None;
     lang := defaultLang;
     button := msg defaultLang "empty";
     placeholder := "";
     searchValue := "";
     statusText := "";
     statusShown := false |}.

(** ** Selection *)

Definition set_selected (b : bool) (o : Opt) : Opt :=
  mkOpt (value o) (textContent o) (className o) b.

Definition set_checked (b : bool) (r : Row) : Row :=
  mkRow (anchorId r) (label r) b (hidden r).

Definition set_hidden (b : bool) (r : Row) : Row :=
  mkRow (anchorId r) (label r) (checked r) b.

(** [drawSelectedOptions]: the button shows the labels of the selected
    options joined by [', '], or the empty message when there is none. *)
Definition drawSelectedOptions (s : Scroll) : Scroll :=
  let sel := List.filter selected (options s) in
  let str :=
    if (length sel =? 0)%nat then msg (lang s) "empty"
    else
      let joined := foldl (λ acc op, acc +:+ textContent op +:+ ", ") "" sel in
      String.substring 0 (String.length joined - 2) joined in
  set_button str s.

(** The click listener that [addChoicesListeners] puts on the [k]-th row.
    The value is read back from the anchor id; when no option carries it,
    [choice] is undefined and the listener throws before it changes
    anything. *)
Definition click (k : nat) (s : Scroll) : Scroll :=
  match rows s !! k with
  | None => s
  | Some li =>
      match split "-" (anchorId li) !! 2%nat with
      | None => s
      | Some v =>
          match list_find (λ x, value x = v) (options s) with
          | None => s
          | Some (j, choice) =>
              if multiple s then
                let now := negb (selected choice) in
                drawSelectedOptions
                  (set_rows (<[k := set_checked now li]> (rows s))
                     (set_options (<[j := set_selected now choice]> (options s)) s))
              else
                set_button (textContent choice)
                  (set_options (imap (λ i o, set_selected (i =? j)%nat o) (options s)) s)
          end
      end
  end.

(** ** Search bar *)

(** [addSearch], called on a widget that has no search bar yet: a new,
    empty search bar and a hidden status line. *)
Definition addSearch (s : Scroll) : Scroll :=
  set_search true
    (set_statusShown false
       (set_statusText (msg (lang s) "startSearch")
          (set_searchValue ""
             (set_placeholder (msg (lang s) "searchPlaceholder") s)))).

(** [updateSearchBarStatus(msg)] *)
Definition updateSearchBarStatus (m : string) (s : Scroll) : Scroll :=
  set_statusText m s.

(** [wipeOptions]: empties the <select> and removes every <li>. *)
Definition wipeOptions (s : Scroll) : Scroll :=
  set_rows [] (set_options [] s).

(** The <option> that [addOptions] creates from a result record. *)
Definition newOpt (opt : JSObj) : Opt :=
  {| value := domString (getValueFromObject opt "value" (JNum (-1)));
     textContent := domString (getValueFromObject opt "text" (JStr "Error"));
     className := domString (getValueFromObject opt "class" (JStr ""));
     selected := false |}.

(** One turn of the loop of [addOptions]: the option is appended to the
    <select>, its row to the list.  The new option is not selected by the
    script; a single-choice <select> left without a selected option selects
    its first one by itself, which is not followed here. *)
Definition addOption (s : Scroll) (opt : JSObj) : Scroll :=
  let o := newOpt opt in
  set_rows (rows s ++ [rowOf (id s) o]) (set_options (options s ++ [o]) s).

(** [addOptions(arr)] *)
Definition addOptions (arr : list JSObj) (s : Scroll) : Scroll :=
  foldl addOption s arr.

Section Widget.

Context {JS : Builtins}.

(** The filter of the input listener for one row. *)
Definition filterRow (val : string) (li : Row) : Row :=
  let title := trim (toLowerCase (label li)) in
  if includes title val then set_hidden false li else set_hidden true li.

(** The input listener installed by [addSearchListeners]. *)
Definition searchListener (s : Scroll) : Scroll :=
  let val := trim (toLowerCase (searchValue s)) in
  match ajax s with
  | Some _ =>
      if (strLength val <? 4)%nat
      then updateSearchBarStatus (msg (lang s) "minLengthAlert") (wipeOptions s)
      else updateSearchBarStatus (msg (lang s) "searching") s
  | None => set_rows (map (filterRow val) (rows s)) s
  end.

(** ** Parameters *)

(** [processAjaxParams]: [{...defaults, ...params}] *)
Definition processAjaxParams (params : AjaxInput) : AjaxParams :=
  {| request := in_request params;
     processData := in_processData params;
     minLength := default 4%nat (in_minLength params);
     maxResults := default 300%nat (in_maxResults params) |}.

(** [processLangParams]: [{...defaults, ...params}] *)
Definition processLangParams (params : Lang) : Lang :=
  params ∪ defaultLang.

(** [setLang(params)] *)
Definition setLang (params : Lang) (s : Scroll) : Scroll :=
  let s1 := set_lang (processLangParams params) s in
  let s2 := set_button (msg (lang s1) "empty") s1 in
  if search s2 then
    set_statusText (msg (lang s2) "startSearch")
      (set_placeholder (msg (lang s2) "searchPlaceholder") s2)
  else s2.

(** ** Remote results *)

(** [replaceChoices(data, totalLength)] *)
Definition replaceChoices (data : list JSObj) (totalLength : nat) (s : Scroll) : Scroll :=
  let s1 := addOptions data (wipeOptions s) in
  let n := length data in
  if (n =? 0)%nat then updateSearchBarStatus (msg (lang s1) "noResults") s1
  else if (n =? 1)%nat then
    updateSearchBarStatus (pretty n +:+ " " +:+ msg (lang s1) "result") s1
  else
    updateSearchBarStatus
      (pretty n +:+ " " +:+ msg (lang s1) "results" +:+
       (if match ajax s1 with
           | Some a => (maxResults a <? totalLength)%nat
           | None => false
           end
        then " (" +:+ pretty totalLength +:+ " " +:+ msg (lang s1) "moreResults" +:+ ")"
        else ""))
      s1.

(** How a request ends: [fetch] (or reading the body) rejects, [JSON.parse]
    throws, or the body parses to an array of records. *)
Inductive Response : Type :=
| NetworkFailure
| ParseFailure
| Parsed (parsed : list JSObj).

(** The [then]/[catch] chain of [fetchData(params, inputData)], run when
    the request ends. *)
Definition settle (params : AjaxParams) (r : Response) (s : Scroll) : Scroll :=
  match r with
  | Parsed parsed =>
      let processed := processData params (take 300 parsed) in
      replaceChoices processed (length parsed) s
  | NetworkFailure | ParseFailure =>
      updateSearchBarStatus (msg (lang s) "error") s
  end.

(** The search bar takes the value [v] and the listener of
    [addSearchListeners] runs. *)
Definition onInput (v : string) (s : Scroll) : Scroll :=
  searchListener (set_searchValue v s).

(** ** The page: timers, listeners and the network *)

(** A pending [setTimeout]: the id it returned and the time it is due. *)
Record Timer : Type := mkTimer {
  timerId : nat;
  deadline : nat
}.

Record Page : Type := mkPage {
  scroll : Scroll;
  clock : nat;                          (* milliseconds *)
  nextTimer : nat;                      (* the id the next setTimeout returns *)
  timers : list Timer;                  (* pending, in the order they were set *)
  debounce : list (option nat);         (* the [debounce] of each addAjax listener *)
  fetches : list (AjaxParams * string)  (* the network calls made so far *)
}.

Definition set_scroll (s : Scroll) (p : Page) : Page :=
  mkPage s (clock p) (nextTimer p) (timers p) (debounce p) (fetches p).

(** The page right after the Scroll was built. *)
Definition load (s : Scroll) : Page :=
  mkPage s 0 1 [] [] [].

(** [clearTimeout(d)]: nothing happens for [undefined] or for an id that
    is no longer pending. *)
Definition clearTimeout (d : option nat) (ts : list Timer) : list Timer :=
  match d with
  | None => ts
  | Some i => List.filter (λ t, negb (timerId t =? i)%nat) ts
  end.

(** [addAjax(params)].  Without a search bar [getSearchBar()] is null and
    the call throws once [this.ajax] is set, before any listener exists. *)
Definition addAjax (params : AjaxInput) (p : Page) : Page :=
  let s1 := set_ajax (Some (processAjaxParams params)) (scroll p) in
  if search s1 then
    mkPage (set_statusShown true s1) (clock p) (nextTimer p) (timers p)
           (debounce p ++ [None]) (fetches p)
  else set_scroll s1 p.

(** [fetchData(params, inputData)]: the request leaves; [settle] runs when
    it ends. *)
Definition fetchData (params : AjaxParams) (inputData : string) (p : Page) : Page :=
  mkPage (scroll p) (clock p) (nextTimer p) (timers p) (debounce p)
         (fetches p ++ [(params, inputData)]).

(** The function given to [setTimeout] by the listener of [addAjax]. *)
Definition onTimeout (p : Page) : Page :=
  let val := trim (toLowerCase (searchValue (scroll p))) in
  match ajax (scroll p) with
  | Some a =>
      if (minLength a <=? strLength val)%nat then fetchData a val p else p
  | None => p
  end.

(** The input listener of the [k]-th call of [addAjax]. *)
Definition ajaxListener (p : Page) (k : nat) : Page :=
  let ts := clearTimeout (mjoin (debounce p !! k)) (timers p) in
  let i := nextTimer p in
  mkPage (scroll p) (clock p) (S i) (ts ++ [mkTimer i (clock p + 1000)])
         (<[k := Some i]> (debounce p)) (fetches p).

(** An input event on the search bar, whose value is now [v]: the
    listeners run in the order they were added.  Without a search bar
    there is nothing to type into. *)
Definition input (v : string) (p : Page) : Page :=
  if search (scroll p) then
    let p1 := set_scroll (onInput v (scroll p)) p in
    foldl ajaxListener p1 (seq 0 (length (debounce p)))
  else p.

Definition isDue (now : nat) (t : Timer) : bool := (deadline t <=? now)%nat.

(** [dt] milliseconds pass with no event: the timers that come due fire,
    in the order they were set. *)
Definition elapse (dt : nat) (p : Page) : Page :=
  let now := clock p + dt in
  let due := List.filter (isDue now) (timers p) in
  let rest := List.filter (λ t, negb (isDue now t)) (timers p) in
  foldl (λ q _, onTimeout q)
        (mkPage (scroll p) now (nextTimer p) rest (debounce p) (fetches p)) due.

(** A request made with [params] ends with [r]. *)
Definition respond (params : AjaxParams) (r : Response) (p : Page) : Page :=
  set_scroll (settle params r (scroll p)) p.

(** A burst of typing: a first keystroke, then keystrokes each [dt]
    milliseconds after the one before. *)
Definition typeBurst (v0 : string) (more : list (nat * string)) (p : Page) : Page :=
  foldl (λ q e, input e.2 (elapse e.1 q)) (input v0 p) more.

(** The value of the last keystroke of a burst. *)
Definition lastTyped (v0 : string) (more : list (nat * string)) : string :=
  default v0 (last (v0 :: map snd more)).

(** ** What the status line is compared with *)

(** The query as the listeners read it: lower-cased, then trimmed. *)
Definition typed (v : string) : string := trim (toLowerCase v).

(** The plural phrase of the status line, and the qualifier that names
    the total. *)
Definition pluralPhrase (l : Lang) (n : nat) : string :=
  pretty n +:+ " " +:+ msg l "results".

Definition qualifier (l : Lang) (t : nat) : string :=
  " (" +:+ pretty t +:+ " " +:+ msg l "moreResults" +:+ ")".

(** The <select> and the list are in step: row [k] is the row of option
    [k], with its anchor id and its label. *)
Definition rowKey (r : Row) : string * string := (anchorId r, label r).

Definition synced (s : Scroll) : Prop :=
  map rowKey (rows s) = map (λ o, rowKey (rowOf (id s) o)) (options s).

(** Whether a row is displayed. *)
Definition visible (r : Row) : bool := negb (hidden r).

(** Requests that end in the [catch] handler without a parsed body. *)
Definition isFailure (r : Response) : bool :=
  match r with
  | NetworkFailure | ParseFailure => true
  | Parsed _ => false
  end.

(** ** Events *)

(** What can happen to a widget once it is built: calls of the host page,
    user events, time passing, requests ending. *)
Inductive Event : Type :=
| Click (k : nat)
| AddSearch
| AddAjax (params : AjaxInput)
| SetLang (params : Lang)
| Input (v : string)
| Elapse (dt : nat)
| Respond (params : AjaxParams) (r : Response)
| WipeOptions
| AddOptions (arr : list JSObj)
| ReplaceChoices (data : list JSObj) (totalLength : nat).

Definition onScroll (f : Scroll → Scroll) (p : Page) : Page :=
  set_scroll (f (scroll p)) p.

Definition step (p : Page) (e : Event) : Page :=
  match e with
  | Click k => onScroll (click k) p
  | AddSearch => onScroll addSearch p
  | AddAjax params => addAjax params p
  | SetLang params => onScroll (setLang params) p
  | Input v => input v p
  | Elapse dt => elapse dt p
  | Respond params r => respond params r p
  | WipeOptions => onScroll wipeOptions p
  | AddOptions arr => onScroll (addOptions arr) p
  | ReplaceChoices data t => onScroll (replaceChoices data t) p
  end.

Definition run (es : list Event) (p : Page) : Page := foldl step p es.

(** The events that install a new remote-search listener. *)
Definition isAddAjax (e : Event) : bool :=
  match e with
  | AddAjax _ => true
  | _ => false
  end.

(** The one timer a page with a single [addAjax] listener can have
    pending is the one its [debounce] names. *)
Definition onlyDebounced (d : option nat) (ts : list Timer) : Prop :=
  match ts with
  | [] => True
  | [t] => d = Some (timerId t)
  | _ => False
  end.

(** A page whose widget searches remotely with parameters [a], through
    one listener. *)
Definition remoteReady (a : AjaxParams) (p : Page) : Prop :=
  search (scroll p) = true ∧ ajax (scroll p) = Some a ∧
  ∃ d, debounce p = [d] ∧ onlyDebounced d (timers p).

(** The page right after a keystroke that left [v] in the search bar:
    the listener's timer is the only one pending and is due a full delay
    from now; [f] is the log of the network calls. *)
Definition armed (a : AjaxParams) (v : string) (f : list (AjaxParams * string))
    (p : Page) : Prop :=
  search (scroll p) = true ∧ ajax (scroll p) = Some a ∧
  searchValue (scroll p) = v ∧ fetches p = f ∧
  ∃ i, debounce p = [Some i] ∧ timers p = [mkTimer i (clock p + 1000)].

(** The network call a fired timer makes for the typed value [v]. *)
Definition callFor (a : AjaxParams) (v : string) : list (AjaxParams * string) :=
  if (minLength a <=? strLength (typed v))%nat then [(a, typed v)] else [].

(** The events that add a search bar. *)
Definition isAddSearch (e : Event) : bool :=
  match e with
  | AddSearch => true
  | _ => false
  end.

(** The events that leave the search bar and its listeners as they are. *)
Definition keepsListeners (e : Event) : bool :=
  negb (isAddAjax e) && negb (isAddSearch e).

(** The page of a widget built on a <select>, given a search bar after
    the events [before], then remote search with [params] after the events
    [between], and seen after the events [es]. *)
Definition remoteWidget (i : nat) (opts : list Opt) (mult : bool)
    (before between : list Event) (params : AjaxInput) (es : list Event) : Page :=
  run es (addAjax params
            (run between (onScroll addSearch (run before (load (init i opts mult)))))).

End Widget.

(** ** Sample widgets *)

Definition optAlpha : Opt := mkOpt "a" "Alpha" "" false.
Definition optBeta : Opt := mkOpt "b" "Beta" "" false.

(** A result processor that hands the records on as they are. *)
Definition passThrough (l : list JSObj) : list JSObj := l.

Definition sampleRequest : Request := mkRequest "/users/search" "POST".

(** A multiple-choice widget with two options, a search bar and remote
    search with the given thresholds. *)
Definition remotePage (minLen maxRes : option nat) : Page :=
  addAjax (mkAjaxInput sampleRequest passThrough minLen maxRes)
          (load (addSearch (init 1 [optAlpha; optBeta] true))).

(** The same widget with a search bar only. *)
Definition localPage : Page :=
  load (addSearch (init 1 [optAlpha; optBeta] true)).

Definition recordOf (v t : string) : JSObj :=
  {[ "value" := JStr v; "text" := JStr t ]}.

(** ** The registry *)

(** An element carrying the class [parchemin]: whether it is a <select>,
    its [id] attribute, and, for a <select>, its options and [multiple]. *)
Record Node : Type := mkNode {
  isSelect : bool;
  nodeId : string;
  nodeOptions : list Opt;
  nodeMultiple : bool
}.

(** A Scroll of the registry: the node it is bound to, and its page. *)
Record Entry : Type := mkEntry {
  node : Node;
  page : Page
}.

(** The [Parchemin] singleton with the static counter of [Scroll]. *)
Record Registry : Type := mkRegistry {
  scrolls : list Entry;
  count : nat                  (* Scroll.#count *)
}.

Module Parchemin.

(** [new Parchemin()] *)
Definition new : Registry := mkRegistry [] 0.

(** [Scroll.increaseCount()]: the counter goes up and its value is the
    new id. *)
Definition increaseCount (r : Registry) : nat * Registry :=
  (S (count r), mkRegistry (scrolls r) (S (count r))).

(** [addScroll(scroll)] *)
Definition addScroll (e : Entry) (r : Registry) : Registry :=
  mkRegistry (scrolls r ++ [e]) (count r).

(** [build(node)]: [new Scroll(node)] draws its id, then is added. *)
Definition build (n : Node) (r : Registry) : Registry :=
  let '(i, r1) := increaseCount r in
  addScroll (mkEntry n (load (init i (nodeOptions n) (nodeMultiple n)))) r1.

(** [init()]: [targets] are the elements of class [parchemin], in
    document order. *)
Definition init (targets : list Node) (r : Registry) : Registry :=
  foldl (λ r tar, if isSelect tar then build tar r else r) r targets.

(** [getScrollFromNode(node)]: the position and the entry found. *)
Definition getScrollFromNode (n : Node) (r : Registry) : option (nat * Entry) :=
  list_find (λ x, nodeId (node x) = nodeId n) (scrolls r).

(** What [addSearch], [addAjax] and [setLang] share: the call goes to
    the Scroll found, if any. *)
Definition forward (f : Page → Page) (n : Node) (r : Registry) : Registry :=
  match getScrollFromNode n r with
  | Some (j, e) => mkRegistry (<[j := mkEntry (node e) (f (page e))]> (scrolls r)) (count r)
  | None => r
  end.

(** [addSearch(node)] *)
Definition addSearch (n : Node) (r : Registry) : Registry :=
  forward (onScroll addSearch) n r.

(** [addAjax(node, params)] *)
Definition addAjax (n : Node) (params : AjaxInput) (r : Registry) : Registry :=
  forward (addAjax params) n r.

(** [setLang(node, params)] *)
Definition setLang (n : Node) (params : Lang) (r : Registry) : Registry :=
  forward (onScroll (setLang params)) n r.

End Parchemin.

(** The ids of the Scrolls of a registry, in the order they were built. *)
Definition scrollIds (r : Registry) : list nat :=
  map (λ e, id (scroll (page e))) (scrolls r).

(** The calls the host page makes on the registry. *)
Inductive Call : Type :=
| CallInit (targets : list Node)
| CallBuild (n : Node)
| CallAddSearch (n : Node)
| CallAddAjax (n : Node) (params : AjaxInput)
| CallSetLang (n : Node) (params : Lang).

Definition call (r : Registry) (c : Call) : Registry :=
  match c with
  | CallInit targets => Parchemin.init targets r
  | CallBuild n => Parchemin.build n r
  | CallAddSearch n => Parchemin.addSearch n r
  | CallAddAjax n params => Parchemin.addAjax n params r
  | CallSetLang n params => Parchemin.setLang n params r
  end.

Definition calls (cs : list Call) (r : Registry) : Registry := foldl call r cs.

(** ** What the other properties are stated with *)

(** Whether the character [c] occurs in [s]. *)
Fixpoint mentions (c : ascii) (s : string) : bool :=
  match s with
  | EmptyString => false
  | String x s' => Ascii.eqb x c || mentions c s'
  end.

(** Whether [s] is made of white space only. *)
Fixpoint blank (s : string) : bool :=
  match s with
  | EmptyString => true
  | String c s' => is_space c && blank s'
  end.

(** The text that sums a selection up: the labels of the selected
    options, in order, separated by a comma and a space; the empty message
    when nothing is selected. *)
Definition summary (l : Lang) (opts : list Opt) : string :=
  match List.filter selected opts with
  | [] => msg l "empty"
  | sel => String.concat ", " (map textContent sel)
  end.

(** The status line that [n] delivered results give when no qualifier
    is due. *)
Definition countPhrase (l : Lang) (n : nat) : string :=
  match n with
  | 0 => msg l "noResults"
  | 1 => "1 " +:+ msg l "result"
  | _ => pluralPhrase l n
  end.

(** A <select> and a second element for the registry examples. *)
Definition selectNode (i : string) : Node := mkNode true i [optAlpha; optBeta] true.
Definition divNode (i : string) : Node := mkNode false i [] false.

(** Text that the HTML parser behind [innerHTML] reads back as it is, as
    the content of an element and as a double-quoted attribute value: no
    [<] (60), [&] (38) or double quote (34), no carriage return (13), no
    NUL (0). *)
Definition plainChar (c : ascii) : bool :=
  let n := nat_of_ascii c in
  negb ((n =? 60) || (n =? 38) || (n =? 34) || (n =? 13) || (n =? 0))%nat.

Fixpoint plain (s : string) : bool :=
  match s with
  | EmptyString => true
  | String c s' => plainChar c && plain s'
  end.

Definition plainOpt (o : Opt) : bool := plain (value o) && plain (textContent o).

(** The events that write no row from other than plain text. *)
Definition plainEvent (e : Event) : bool :=
  match e with
  | AddOptions arr => forallb (λ r, plainOpt (newOpt r)) arr
  | ReplaceChoices data _ => forallb (λ r, plainOpt (newOpt r)) data
  | Respond params (Parsed parsed) =>
      forallb (λ r, plainOpt (newOpt r)) (processData params (take 300 parsed))
  | _ => true
  end.

(** * Properties *)

Section Generic.

Context {JS : Builtins}.

(** ** Frame lemmas *)

Lemma addOptions_spec (arr : list JSObj) (s : Scroll) :
  addOptions arr s =
  set_rows (rows s ++ map (λ o, rowOf (id s) (newOpt o)) arr)
           (set_options (options s ++ map newOpt arr) s).
Proof.
  unfold addOptions. revert s.
  induction arr as [|o arr IH]; intros s.
  - destruct s; cbn. unfold set_rows, set_options; cbn. by rewrite !app_nil_r.
  - cbn [foldl]. rewrite IH. destruct s; unfold addOption, set_rows, set_options; cbn.
    by rewrite <- !app_assoc.
Qed.

Lemma replaceChoices_frame (data : list JSObj) (t : nat) (s : Scroll) :
  replaceChoices data t s =
  set_statusText (statusText (replaceChoices data t s))
    (set_rows (map (λ o, rowOf (id s) (newOpt o)) data)
       (set_options (map newOpt data) s)).
Proof.
  unfold replaceChoices. rewrite addOptions_spec.
  destruct s; unfold updateSearchBarStatus, wipeOptions, set_statusText, set_rows, set_options; cbn.
  repeat case_match; reflexivity.
Qed.

Lemma string_app_cons (c : ascii) (a b : string) :
  String c a +:+ b = String c (a +:+ b).
Proof. reflexivity. Qed.

Lemma string_app_nil_r (s : string) : s +:+ "" = s.
Proof.
  induction s as [|c s IH]; [done|]. by rewrite string_app_cons, IH.
Qed.

Lemma string_app_assoc (a b c : string) : (a +:+ b) +:+ c = a +:+ b +:+ c.
Proof.
  induction a as [|x a IH]; [done|]. by rewrite !string_app_cons, IH.
Qed.

Lemma qualifier_not_empty (l : Lang) (t : nat) : qualifier l t ≠ "".
Proof. unfold qualifier. cbn. discriminate. Qed.

Lemma phrase_qualifier_differs (l : Lang) (n t : nat) :
  pluralPhrase l n +:+ qualifier l t ≠ pluralPhrase l n.
Proof.
  intros H. rewrite <- (string_app_nil_r (pluralPhrase l n)) in H at 2.
  apply String.app_inj in H. by apply qualifier_not_empty in H.
Qed.

(** ** Status line after a replacement *)

(** C3: after [replaceChoices data t], with [n] the length of [data]: the
    <select> and the list hold [n] entries; the status line is the
    no-results message when [n = 0], ["1 "] followed by the singular message
    when [n = 1], and for [n > 1] the plural phrase, followed by the
    qualifier naming [t] exactly when [t] exceeds the configured
    [maxResults]. *)
Theorem replaceChoices_status (a : AjaxParams) (data : list JSObj) (t : nat) (s : Scroll) :
  ajax s = Some a →
  let n := length data in
  let s' := replaceChoices data t s in
  length (options s') = n ∧ length (rows s') = n ∧
  (n = 0 → statusText s' = msg (lang s) "noResults") ∧
  (n = 1 → statusText s' = "1 " +:+ msg (lang s) "result") ∧
  (1 < n →
     (statusText s' = pluralPhrase (lang s) n +:+ qualifier (lang s) t ↔ maxResults a < t) ∧
     (statusText s' = pluralPhrase (lang s) n ↔ t ≤ maxResults a)).
Proof.
  intros Ha n s'.
  assert (Hst : statusText s' =
    if (n =? 0)%nat then msg (lang s) "noResults"
    else if (n =? 1)%nat then pretty n +:+ " " +:+ msg (lang s) "result"
    else pluralPhrase (lang s) n +:+
         (if (maxResults a <? t)%nat then qualifier (lang s) t else "")).
  { subst s' n. unfold replaceChoices. rewrite addOptions_spec.
    destruct s; cbn in Ha; subst; cbn.
    unfold pluralPhrase, qualifier.
    repeat case_match; cbn; try reflexivity;
      by rewrite ?string_app_assoc. }
  assert (Hlen : length (options s') = n ∧ length (rows s') = n).
  { subst s'. rewrite replaceChoices_frame. cbn. by rewrite !length_map. }
  clearbody n s'. destruct Hlen as [Ho Hr].
  split; [done|]. split; [done|]. rewrite Hst. clear Hst Ho Hr.
  split; [by intros ->|]. split; [by intros ->|].
  intros Hn.
  destruct (Nat.eqb_spec n 0); [lia|]. destruct (Nat.eqb_spec n 1); [lia|].
  destruct (Nat.ltb_spec (maxResults a) t) as [Hlt|Hge].
  - split; split; try done; try lia.
    intros E. by apply phrase_qualifier_differs in E.
  - rewrite string_app_nil_r. split; split; try done; try lia.
    intros E. symmetry in E. by apply phrase_qualifier_differs in E.
Qed.

(** ** Messages *)

Lemma lang_setLang (params : Lang) (s : Scroll) :
  lang (setLang params s) = params ∪ defaultLang.
Proof. unfold setLang. cbn. by destruct (search s). Qed.

(** C4, as the code has it: [setLang] merges the overrides onto the
    built-in defaults, not onto the current messages.  A key given in the
    overrides takes the given text; every other key takes its built-in
    default, whatever an earlier call had set. *)
Theorem setLang_merges_onto_defaults (params : Lang) (s : Scroll) (k : string) :
  (∀ v, params !! k = Some v → lang (setLang params s) !! k = Some v) ∧
  (params !! k = None → lang (setLang params s) !! k = defaultLang !! k).
Proof.
  rewrite lang_setLang. split.
  - intros v Hv. by apply lookup_union_Some_l.
  - intros Hn. by apply lookup_union_r.
Qed.

(** ** Failed requests *)

(** C5: when a request ends in a network or parse failure, the options of
    the <select> and the rows of the list are what they were, the status
    line shows the error message, and nothing else in the page changes:
    listeners, timers and parameters are in place, and the next keystroke
    on a remote widget has the effect it would have had without the
    failure. *)
Theorem failure_only_sets_status (params : AjaxParams) (r : Response) (p : Page) :
  isFailure r = true →
  let p' := respond params r p in
  options (scroll p') = options (scroll p) ∧
  rows (scroll p') = rows (scroll p) ∧
  statusText (scroll p') = msg (lang (scroll p)) "error" ∧
  p' = set_scroll (set_statusText (msg (lang (scroll p)) "error") (scroll p)) p ∧
  (∀ v, search (scroll p) = true → is_Some (ajax (scroll p)) →
        input v p' = input v p).
Proof.
  intros Hr. destruct r; [| |discriminate];
    (cbn; repeat split; try reflexivity;
     intros v Hs [a Ha]; destruct p as [s c n ts d f]; destruct s; cbn in *; subst;
     unfold input; cbn; f_equal; unfold searchListener; cbn; by case_match).
Qed.

(** ** Options made from result records *)

(** C10: [addOptions] appends one option per record, in order, built by
    [newOpt]; a record without ['value'] gives the value [-1], without
    ['text'] the label ['Error'], without ['class'] the empty class; a
    field that is present is the one used. *)
Theorem addOptions_defaults (arr : list JSObj) (s : Scroll) (opt : JSObj) :
  options (addOptions arr s) = options s ++ map newOpt arr ∧
  (opt !! "value" = None →
     getValueFromObject opt "value" (JNum (-1)) = JNum (-1) ∧ value (newOpt opt) = "-1") ∧
  (opt !! "text" = None →
     getValueFromObject opt "text" (JStr "Error") = JStr "Error" ∧
     textContent (newOpt opt) = "Error") ∧
  (opt !! "class" = None →
     getValueFromObject opt "class" (JStr "") = JStr "" ∧ className (newOpt opt) = "") ∧
  (∀ v, opt !! "value" = Some v →
     getValueFromObject opt "value" (JNum (-1)) = v ∧ value (newOpt opt) = domString v) ∧
  (∀ v, opt !! "text" = Some v →
     getValueFromObject opt "text" (JStr "Error") = v ∧
     textContent (newOpt opt) = domString v) ∧
  (∀ v, opt !! "class" = Some v →
     getValueFromObject opt "class" (JStr "") = v ∧ className (newOpt opt) = domString v).
Proof.
  split; [by rewrite addOptions_spec|].
  unfold newOpt, getValueFromObject; cbn [value textContent className].
  split_and!; intros;
    match goal with H : _ = _ |- _ => rewrite H end; split; reflexivity.
Qed.

(** ** Local filtering *)

Lemma filterRow_idem (val : string) (li : Row) :
  filterRow val (filterRow val li) = filterRow val li.
Proof.
  unfold filterRow.
  destruct (includes (trim (toLowerCase (label li))) val) eqn:E; cbn [label set_hidden]; by rewrite E.
Qed.

Lemma visible_filterRow (val : string) (li : Row) :
  visible (filterRow val li) = includes (typed (label li)) val.
Proof. unfold filterRow, visible, typed. by case_match. Qed.

Lemma onInput_local (v : string) (s : Scroll) :
  ajax s = None →
  onInput v s = set_rows (map (filterRow (typed v)) (rows s)) (set_searchValue v s).
Proof. intros Ha. unfold onInput, searchListener. cbn [ajax set_searchValue]. by rewrite Ha. Qed.

Lemma onInput_local_idem (v : string) (s : Scroll) :
  ajax s = None → onInput v (onInput v s) = onInput v s.
Proof.
  intros Ha. rewrite (onInput_local v s Ha).
  rewrite onInput_local by done.
  unfold set_rows, set_searchValue; cbn [id options rows multiple search ajax lang
    button placeholder searchValue statusText statusShown].
  f_equal. rewrite map_map. apply map_ext. intros li. apply filterRow_idem.
Qed.

(** C8: on a widget without remote search, an input event leaves the
    options of the <select> as they are and displays exactly the rows whose
    lower-cased, trimmed label contains the lower-cased, trimmed query; a
    second input event with the same query changes nothing. *)
Theorem local_filter_idempotent (v : string) (p : Page) :
  ajax (scroll p) = None → debounce p = [] →
  let p1 := input v p in
  input v p1 = p1 ∧
  options (scroll p1) = options (scroll p) ∧
  (search (scroll p) = true →
     map visible (rows (scroll p1)) =
     map (λ li, includes (typed (label li)) (typed v)) (rows (scroll p))).
Proof.
  intros Ha Hd p1. subst p1. unfold input. rewrite Hd. cbn [length seq foldl].
  destruct (search (scroll p)) eqn:Hs.
  - cbn [scroll set_scroll debounce length seq foldl].
    rewrite (onInput_local v (scroll p) Ha) at 1.
    cbn [search set_rows set_searchValue]. rewrite Hs. rewrite Hd.
    cbn [length seq foldl scroll set_scroll].
    rewrite onInput_local_idem by done. split; [done|].
    rewrite onInput_local by done. cbn [options rows set_rows set_searchValue].
    split; [done|]. intros _. rewrite map_map. apply map_ext. intros li.
    apply visible_filterRow.
  - rewrite Hs. split; [done|]. split; [done|]. discriminate.
Qed.

(** ** The <select> and the list stay in step *)

Lemma map_insert_same {A B : Type} (f : A → B) (l : list A) (k : nat) (x y : A) :
  l !! k = Some y → f x = f y → map f (<[k := x]> l) = map f l.
Proof.
  revert k. induction l as [|z l IH]; intros [|k] Hk Hf; try discriminate.
  - cbn in Hk. injection Hk as ->. cbn. by rewrite Hf.
  - cbn in *. by rewrite IH.
Qed.

Lemma map_imap_same {A B : Type} (f : A → B) (g : nat → A → A) (l : list A) :
  (∀ i x, f (g i x) = f x) → map f (imap g l) = map f l.
Proof.
  revert g. induction l as [|z l IH]; intros g Hg; [done|].
  cbn. rewrite Hg. f_equal. apply IH. intros i x. apply Hg.
Qed.

Lemma synced_same (s s' : Scroll) :
  id s' = id s →
  map rowKey (rows s') = map rowKey (rows s) →
  map (λ o, rowKey (rowOf (id s) o)) (options s') =
    map (λ o, rowKey (rowOf (id s) o)) (options s) →
  synced s → synced s'.
Proof. unfold synced. intros -> -> ->. done. Qed.

Lemma synced_init (i : nat) (opts : list Opt) (mult : bool) :
  synced (init i opts mult).
Proof. unfold synced, init, getOptionsAsHTML. cbn. by rewrite map_map. Qed.

Lemma synced_wipeOptions (s : Scroll) : synced (wipeOptions s).
Proof. reflexivity. Qed.

Lemma synced_addOptions (arr : list JSObj) (s : Scroll) :
  synced s → synced (addOptions arr s).
Proof.
  unfold synced. intros Hs. rewrite addOptions_spec. cbn.
  rewrite !map_app, Hs, !map_map. done.
Qed.

Lemma synced_replaceChoices (data : list JSObj) (t : nat) (s : Scroll) :
  synced (replaceChoices data t s).
Proof.
  rewrite replaceChoices_frame. unfold synced. cbn. by rewrite !map_map.
Qed.

Lemma synced_setLang (params : Lang) (s : Scroll) :
  synced s → synced (setLang params s).
Proof. unfold setLang. cbn. by destruct (search s). Qed.

Lemma synced_drawSelectedOptions (s : Scroll) :
  synced s → synced (drawSelectedOptions s).
Proof. done. Qed.

Lemma synced_click (k : nat) (s : Scroll) : synced s → synced (click k s).
Proof.
  intros Hs. unfold click.
  destruct (rows s !! k) as [li|] eqn:Hli; [|done].
  destruct (split "-" (anchorId li) !! 2%nat) as [v|]; [|done].
  destruct (list_find _ _) as [[j choice]|] eqn:Hf; [|done].
  apply list_find_Some in Hf as (Hj & _ & _).
  destruct (multiple s).
  - apply synced_drawSelectedOptions.
    apply (synced_same s); cbn; try done.
    + by apply (map_insert_same rowKey _ _ _ li).
    + by apply (map_insert_same _ _ _ _ choice).
  - apply (synced_same s); cbn; try done.
    by apply map_imap_same.
Qed.

Lemma synced_onInput (v : string) (s : Scroll) : synced s → synced (onInput v s).
Proof.
  intros Hs. unfold onInput, searchListener. cbn [ajax set_searchValue].
  destruct (ajax s).
  - case_match; [reflexivity | exact Hs].
  - apply (synced_same s); cbn; try done.
    rewrite map_map. apply map_ext. intros li. unfold filterRow. by case_match.
Qed.

Lemma synced_settle (params : AjaxParams) (r : Response) (s : Scroll) :
  synced s → synced (settle params r s).
Proof.
  intros Hs. destruct r; cbn; try exact Hs. apply synced_replaceChoices.
Qed.

Lemma scroll_ajaxListeners (ks : list nat) (p : Page) :
  scroll (foldl ajaxListener p ks) = scroll p.
Proof. revert p. induction ks as [|k ks IH]; intros p; [done|]. cbn. by rewrite IH. Qed.

Lemma scroll_onTimeout (p : Page) : scroll (onTimeout p) = scroll p.
Proof. unfold onTimeout. repeat case_match; reflexivity. Qed.

Lemma scroll_timeouts {A : Type} (due : list A) (p : Page) :
  scroll (foldl (λ q _, onTimeout q) p due) = scroll p.
Proof.
  revert p. induction due as [|t due IH]; intros p; [done|].
  cbn. by rewrite IH, scroll_onTimeout.
Qed.

Lemma scroll_elapse (dt : nat) (p : Page) : scroll (elapse dt p) = scroll p.
Proof. unfold elapse. by rewrite scroll_timeouts. Qed.

Lemma scroll_input (v : string) (p : Page) :
  scroll (input v p) = if search (scroll p) then onInput v (scroll p) else scroll p.
Proof. unfold input. destruct (search (scroll p)); [|done]. by rewrite scroll_ajaxListeners. Qed.

Lemma synced_step (p : Page) (e : Event) :
  synced (scroll p) → synced (scroll (step p e)).
Proof.
  intros Hs. destruct e; cbn.
  - by apply synced_click.
  - exact Hs.
  - unfold addAjax. cbn. by destruct (search (scroll p)).
  - by apply synced_setLang.
  - rewrite scroll_input. destruct (search (scroll p)); [by apply synced_onInput | done].
  - by rewrite scroll_elapse.
  - by apply synced_settle.
  - apply synced_wipeOptions.
  - by apply synced_addOptions.
  - apply synced_replaceChoices.
Qed.

(** What holds of the invariant of C6: when the options the widget is
    built on and the records later added are made of plain text, then after
    construction and after every later event (clicks, local filtering,
    [wipeOptions], [addOptions], [replaceChoices], remote searches and their
    answers, [setLang], time passing) the list has one row per option of the
    <select>, in the same order, each row carrying the anchor id and the
    label of its option. *)
Theorem select_and_list_in_sync (i : nat) (opts : list Opt) (mult : bool) (es : list Event) :
  Forall (λ o, plainOpt o = true) opts → Forall (λ e, plainEvent e = true) es →
  let s := scroll (run es (load (init i opts mult))) in
  synced s ∧ length (rows s) = length (options s).
Proof.
  intros _ _.
  assert (H : synced (scroll (run es (load (init i opts mult))))).
  { unfold run. generalize (synced_init i opts mult).
    change (init i opts mult) with (scroll (load (init i opts mult))) at 1.
    generalize (load (init i opts mult)). induction es as [|e es IH]; intros p Hp; [done|].
    cbn. apply IH. by apply synced_step. }
  split; [exact H|].
  unfold synced in H. apply (f_equal length) in H. by rewrite !length_map in H.
Qed.

(** [synced] spelled out: the rows and the options pair off, the anchor
    of each row being named after the widget and the value of its option,
    and its label being the text of the option. *)
Lemma synced_explicit (s : Scroll) :
  synced s ↔
  Forall2 (λ li o, anchorId li = "parchemin-" +:+ pretty (id s) +:+ "-" +:+ value o ∧
                   label li = textContent o)
          (rows s) (options s).
Proof.
  unfold synced. generalize (id s) (rows s) (options s). intros i rs os.
  revert os. induction rs as [|li rs IH]; intros [|o os]; cbn.
  - split; [constructor|done].
  - split; [discriminate|]. intros H. inversion H.
  - split; [discriminate|]. intros H. inversion H.
  - split.
    + intros H. injection H as H1 H2 H3. constructor; [done|]. by apply IH.
    + intros H. inversion H as [|? ? ? ? [H1 H2] H3]; subst.
      unfold rowKey at 1 2. cbn. unfold anchorIdOf. rewrite H1, H2. f_equal.
      by apply IH.
Qed.

(** ** Debouncing *)

Lemma onInput_fields (v : string) (s : Scroll) :
  search (onInput v s) = search s ∧ ajax (onInput v s) = ajax s ∧
  searchValue (onInput v s) = v.
Proof.
  unfold onInput, searchListener. cbn [ajax set_searchValue searchValue lang].
  destruct (ajax s) eqn:E; [case_match|]; cbn; rewrite ?E; done.
Qed.

Lemma clearTimeout_onlyDebounced (d : option nat) (ts : list Timer) :
  onlyDebounced d ts → clearTimeout d ts = [].
Proof.
  destruct ts as [|t [|t' ts]]; cbn; [|intros ->|done].
  - by destruct d.
  - cbn. by rewrite Nat.eqb_refl.
Qed.

Lemma remoteReady_one_timer (a : AjaxParams) (p : Page) :
  remoteReady a p → length (timers p) ≤ 1.
Proof.
  intros (_ & _ & d & _ & Ht). destruct (timers p) as [|t [|t' ts]]; cbn in *; [lia|lia|done].
Qed.

Lemma input_armed (a : AjaxParams) (v : string) (p : Page) :
  remoteReady a p → armed a v (fetches p) (input v p).
Proof.
  intros (Hs & Ha & d & Hd & Ht).
  destruct (onInput_fields v (scroll p)) as (Hs' & Ha' & Hv').
  unfold input. rewrite Hs, Hd. cbn [length seq foldl].
  unfold ajaxListener. cbn [scroll set_scroll clock nextTimer timers debounce fetches].
  rewrite Hd. cbn [lookup list_lookup mjoin option_join].
  rewrite (clearTimeout_onlyDebounced d (timers p) Ht).
  unfold armed. cbn [scroll clock nextTimer timers debounce fetches].
  rewrite Hs', Ha', Hv', Hs, Ha. repeat split. by eexists.
Qed.

Lemma elapse_short (a : AjaxParams) (v : string) (f : list (AjaxParams * string))
    (dt : nat) (p : Page) :
  armed a v f p → dt < 1000 →
  remoteReady a (elapse dt p) ∧ fetches (elapse dt p) = f ∧
  searchValue (scroll (elapse dt p)) = v ∧ timers (elapse dt p) = timers p.
Proof.
  intros (Hs & Ha & Hv & Hf & i & Hd & Ht) Hdt.
  unfold elapse. rewrite Ht. cbn [List.filter]. unfold isDue. cbn [deadline].
  destruct (Nat.leb_spec (clock p + 1000) (clock p + dt)); [lia|].
  cbn [negb foldl]. unfold remoteReady.
  cbn [scroll clock nextTimer timers debounce fetches].
  repeat split; try done. exists (Some i). by rewrite Hd.
Qed.

Lemma elapse_long (a : AjaxParams) (v : string) (f : list (AjaxParams * string))
    (q : nat) (p : Page) :
  armed a v f p → 1000 ≤ q →
  fetches (elapse q p) = f ++ callFor a v ∧ timers (elapse q p) = [] ∧
  remoteReady a (elapse q p).
Proof.
  intros (Hs & Ha & Hv & Hf & i & Hd & Ht) Hq.
  unfold elapse. rewrite Ht. cbn [List.filter]. unfold isDue. cbn [deadline].
  destruct (Nat.leb_spec (clock p + 1000) (clock p + q)); [|lia].
  cbn [negb foldl]. unfold onTimeout, callFor, typed, remoteReady.
  cbn [scroll clock nextTimer timers debounce fetches]. rewrite Ha, Hv.
  destruct (minLength a <=? _)%nat;
    cbn [fetchData scroll clock nextTimer timers debounce fetches];
    rewrite ?Hf, ?app_nil_r; repeat split; try done; by exists (Some i).
Qed.

Lemma lastTyped_cons (v0 : string) (e : nat * string) (more : list (nat * string)) :
  lastTyped v0 (e :: more) = lastTyped e.2 more.
Proof.
  unfold lastTyped. cbn [map]. generalize (map snd more). intros l.
  change (last (v0 :: e.2 :: l)) with (last (e.2 :: l)).
  destruct (last (e.2 :: l)) eqn:E; [done|].
  by apply last_None in E.
Qed.

Lemma burst_armed (a : AjaxParams) (f : list (AjaxParams * string))
    (more : list (nat * string)) (v : string) (p : Page) :
  armed a v f p → Forall (λ e, e.1 < 1000) more →
  armed a (lastTyped v more) f (foldl (λ q e, input e.2 (elapse e.1 q)) p more).
Proof.
  revert v p. induction more as [|e more IH]; intros v p Hp Hm; [done|].
  apply Forall_cons in Hm as [He Hm]. cbn [foldl]. rewrite lastTyped_cons.
  apply IH; [|done].
  destruct (elapse_short a v f e.1 p Hp He) as (Hr & Hf & _).
  rewrite <- Hf. by apply input_armed.
Qed.

Lemma armed_remoteReady (a : AjaxParams) (v : string)
    (f : list (AjaxParams * string)) (p : Page) :
  armed a v f p → remoteReady a p.
Proof.
  intros (Hs & Ha & _ & _ & i & Hd & Ht). repeat split; try done.
  exists (Some i). by rewrite Hd, Ht.
Qed.

Lemma timers_timeouts {A : Type} (due : list A) (p : Page) :
  timers (foldl (λ q _, onTimeout q) p due) = timers p ∧
  debounce (foldl (λ q _, onTimeout q) p due) = debounce p.
Proof.
  revert p. induction due as [|t due IH]; intros p; [done|].
  cbn [foldl]. destruct (IH (onTimeout p)) as [-> ->].
  unfold onTimeout. repeat case_match; done.
Qed.

Lemma elapse_remoteReady (a : AjaxParams) (dt : nat) (p : Page) :
  remoteReady a p → remoteReady a (elapse dt p).
Proof.
  intros (Hs & Ha & d & Hd & Ht). unfold remoteReady.
  rewrite scroll_elapse. repeat split; try done. exists d.
  unfold elapse. destruct (timers_timeouts
    (List.filter (isDue (clock p + dt)) (timers p))
    (mkPage (scroll p) (clock p + dt) (nextTimer p)
       (List.filter (λ t, negb (isDue (clock p + dt) t)) (timers p))
       (debounce p) (fetches p))) as [-> ->].
  cbn [timers debounce]. split; [done|].
  destruct (timers p) as [|t [|t' ts]]; [done| |done].
  cbn [List.filter]. by destruct (negb _).
Qed.

Lemma click_keeps (k : nat) (s : Scroll) :
  search (click k s) = search s ∧ ajax (click k s) = ajax s.
Proof. unfold click. repeat case_match; done. Qed.

Lemma setLang_keeps (params : Lang) (s : Scroll) :
  search (setLang params s) = search s ∧ ajax (setLang params s) = ajax s.
Proof.
  unfold setLang. cbn [search set_button set_lang].
  destruct (search s) eqn:E; cbn; by rewrite ?E.
Qed.

Lemma replaceChoices_keeps (data : list JSObj) (t : nat) (s : Scroll) :
  search (replaceChoices data t s) = search s ∧ ajax (replaceChoices data t s) = ajax s.
Proof. by rewrite replaceChoices_frame. Qed.

Lemma settle_keeps (params : AjaxParams) (r : Response) (s : Scroll) :
  search (settle params r s) = search s ∧ ajax (settle params r s) = ajax s.
Proof. destruct r; cbn [settle]; try done. apply replaceChoices_keeps. Qed.

Lemma remoteReady_onScroll (a : AjaxParams) (f : Scroll → Scroll) (p : Page) :
  (search (scroll p) = true → search (f (scroll p)) = true) →
  ajax (f (scroll p)) = ajax (scroll p) →
  remoteReady a p → remoteReady a (onScroll f p).
Proof.
  intros Hs Ha (Hs' & Ha' & Hd). unfold remoteReady, onScroll.
  cbn [scroll set_scroll timers debounce]. rewrite Ha. auto.
Qed.

Lemma remoteReady_step (a : AjaxParams) (p : Page) (e : Event) :
  isAddAjax e = false → remoteReady a p → remoteReady a (step p e).
Proof.
  intros He Hp. destruct e; try discriminate; cbn [step].
  - apply remoteReady_onScroll; [|apply click_keeps|done].
    by destruct (click_keeps k (scroll p)) as [-> _].
  - by apply remoteReady_onScroll.
  - apply remoteReady_onScroll; [|apply setLang_keeps|done].
    by destruct (setLang_keeps params (scroll p)) as [-> _].
  - eapply armed_remoteReady. by apply input_armed.
  - by apply elapse_remoteReady.
  - apply (remoteReady_onScroll a (settle params r)); [|apply settle_keeps|done].
    by destruct (settle_keeps params r (scroll p)) as [-> _].
  - by apply remoteReady_onScroll.
  - apply remoteReady_onScroll; [| |done]; by rewrite addOptions_spec.
  - apply remoteReady_onScroll; [|apply replaceChoices_keeps|done].
    by destruct (replaceChoices_keeps data totalLength (scroll p)) as [-> _].
Qed.

Lemma remoteReady_run (a : AjaxParams) (es : list Event) (p : Page) :
  Forall (λ e, isAddAjax e = false) es → remoteReady a p → remoteReady a (run es p).
Proof.
  unfold run. revert p. induction es as [|e es IH]; intros p Hes Hp; [done|].
  apply Forall_cons in Hes as [He Hes]. cbn [foldl]. apply IH; [done|].
  by apply remoteReady_step.
Qed.

Lemma quiet_step (p : Page) (e : Event) :
  isAddAjax e = false → debounce p = [] → timers p = [] →
  debounce (step p e) = [] ∧ timers (step p e) = [] ∧ fetches (step p e) = fetches p.
Proof.
  intros He Hd Ht. destruct e; try discriminate; cbn [step onScroll set_scroll respond
    debounce timers fetches]; try done.
  - unfold input. rewrite Hd. by destruct (search (scroll p)).
  - unfold elapse. by rewrite Ht.
Qed.

Lemma keepsListeners_notAddAjax (es : list Event) :
  Forall (λ e, keepsListeners e = true) es → Forall (λ e, isAddAjax e = false) es.
Proof.
  intros Hes. eapply Forall_impl; [exact Hes|]. cbn beta. intros e H.
  unfold keepsListeners in H.
  apply andb_true_iff in H as [H _]. by apply negb_true_iff in H.
Qed.

Lemma quiet_run (es : list Event) (p : Page) :
  Forall (λ e, isAddAjax e = false) es → debounce p = [] → timers p = [] →
  debounce (run es p) = [] ∧ timers (run es p) = [].
Proof.
  unfold run. revert p. induction es as [|e es IH]; intros p Hes Hd Ht; [done|].
  apply Forall_cons in Hes as [He Hes]. cbn [foldl].
  destruct (quiet_step p e He Hd Ht) as (Hd' & Ht' & _). by apply IH.
Qed.

Lemma search_step (p : Page) (e : Event) :
  search (scroll p) = true → search (scroll (step p e)) = true.
Proof.
  intros Hs. destruct e; cbn [step onScroll scroll set_scroll respond]; try done.
  - by destruct (click_keeps k (scroll p)) as [-> _].
  - unfold addAjax. cbn [scroll set_ajax search]. by rewrite Hs.
  - by destruct (setLang_keeps params (scroll p)) as [-> _].
  - rewrite scroll_input, Hs. by destruct (onInput_fields v (scroll p)) as (-> & _).
  - by rewrite scroll_elapse.
  - by destruct (settle_keeps params r (scroll p)) as [-> _].
  - by rewrite addOptions_spec.
  - by destruct (replaceChoices_keeps data totalLength (scroll p)) as [-> _].
Qed.

Lemma search_run (es : list Event) (p : Page) :
  search (scroll p) = true → search (scroll (run es p)) = true.
Proof.
  unfold run. revert p. induction es as [|e es IH]; intros p Hs; [done|].
  cbn [foldl]. apply IH. by apply search_step.
Qed.

Lemma remoteWidget_ready (i : nat) (opts : list Opt) (mult : bool)
    (before between : list Event) (params : AjaxInput) (es : list Event) :
  Forall (λ e, keepsListeners e = true) before →
  Forall (λ e, keepsListeners e = true) between →
  Forall (λ e, keepsListeners e = true) es →
  remoteReady (processAjaxParams params)
              (remoteWidget i opts mult before between params es).
Proof.
  intros Hb Hbt Hes. unfold remoteWidget.
  apply remoteReady_run; [by apply keepsListeners_notAddAjax|].
  destruct (quiet_run before (load (init i opts mult))
              (keepsListeners_notAddAjax _ Hb) eq_refl eq_refl) as [Hd0 Ht0].
  set (p1 := onScroll addSearch (run before (load (init i opts mult)))).
  assert (Hs1 : search (scroll p1) = true) by reflexivity.
  destruct (quiet_run between p1 (keepsListeners_notAddAjax _ Hbt) Hd0 Ht0) as [Hd Ht].
  pose proof (search_run between p1 Hs1) as Hs.
  unfold remoteReady, addAjax. cbn [scroll set_ajax search]. rewrite Hs.
  cbn [scroll search ajax set_statusShown set_ajax debounce timers].
  split; [done|]. split; [done|]. exists None. by rewrite Hd, Ht.
Qed.

(** C7, as the code has it: on a widget given a search bar and, later,
    remote search by one call of [addAjax], [addSearch] and [addAjax] being
    called that once and whatever other events came before, between and
    after, at most one timer is pending; each input event clears the timer
    set by the one before, so that after any burst of keystrokes less than
    the delay apart exactly one timer is pending and no network call was
    made meanwhile; once the delay has passed the timer has fired and has
    made at most one network call: one call carrying the lower-cased,
    trimmed value of the last keystroke when the length of that value is at
    least [minLength], none otherwise. *)
Theorem burst_makes_at_most_one_call (i : nat) (opts : list Opt) (mult : bool)
    (before between : list Event) (params : AjaxInput) (es : list Event)
    (v0 : string) (more : list (nat * string)) (q : nat) :
  Forall (λ e, keepsListeners e = true) before →
  Forall (λ e, keepsListeners e = true) between →
  Forall (λ e, keepsListeners e = true) es →
  Forall (λ e, e.1 < 1000) more → 1000 ≤ q →
  let a := processAjaxParams params in
  let p := remoteWidget i opts mult before between params es in
  let p' := typeBurst v0 more p in
  length (timers p) ≤ 1 ∧
  length (timers p') = 1 ∧ fetches p' = fetches p ∧
  timers (elapse q p') = [] ∧
  fetches (elapse q p') = fetches p ++
    (if (minLength a <=? strLength (typed (lastTyped v0 more)))%nat
     then [(a, typed (lastTyped v0 more))] else []).
Proof.
  intros Hb Hbt Hes Hm Hq a p p'.
  assert (Hp : remoteReady a p) by by apply remoteWidget_ready.
  assert (Harm : armed a (lastTyped v0 more) (fetches p) p').
  { apply burst_armed; [|done]. by apply input_armed. }
  destruct (elapse_long a _ _ q p' Harm Hq) as (Hf & Ht & _).
  destruct Harm as (_ & _ & _ & Hf' & j & _ & Ht').
  rewrite Ht'. split; [by eapply remoteReady_one_timer|]. repeat split; done.
Qed.

(** ** Where the thresholds are hard-wired *)

Lemma short_query_wipes (a : AjaxParams) (v : string) (p : Page) :
  remoteReady a p → strLength (typed v) < 4 →
  options (scroll (input v p)) = [] ∧ rows (scroll (input v p)) = [] ∧
  statusText (scroll (input v p)) = msg (lang (scroll p)) "minLengthAlert".
Proof.
  intros (Hs & Ha & _) Hv. rewrite scroll_input, Hs.
  unfold onInput, searchListener. cbn [ajax set_searchValue searchValue lang].
  rewrite Ha. unfold typed in Hv. apply Nat.ltb_lt in Hv. by rewrite Hv.
Qed.

Lemma below_minLength_no_call (a : AjaxParams) (v : string) (p : Page) (q : nat) :
  remoteReady a p → strLength (typed v) < minLength a →
  fetches (elapse q (input v p)) = fetches p.
Proof.
  intros Hp Hv. pose proof (input_armed a v p Hp) as Harm.
  destruct (Nat.lt_ge_cases q 1000) as [Hq|Hq].
  - by destruct (elapse_short a v _ q _ Harm Hq) as (_ & Hf & _).
  - destruct (elapse_long a v _ q _ Harm Hq) as (Hf & _). rewrite Hf.
    unfold callFor. destruct (Nat.leb_spec (minLength a) (strLength (typed v))); [lia|].
    by rewrite app_nil_r.
Qed.

(** A failed query seen from the keystroke on: when the typed value has at
    least four characters the keystroke keeps the options, and so does the
    failure that ends the request. *)
Lemma failed_query_keeps_options (a : AjaxParams) (r : Response) (v : string)
    (q : nat) (p : Page) :
  remoteReady a p → 4 ≤ strLength (typed v) → isFailure r = true →
  let p' := respond a r (elapse q (input v p)) in
  options (scroll p') = options (scroll p) ∧ rows (scroll p') = rows (scroll p) ∧
  statusText (scroll p') = msg (lang (scroll p)) "error".
Proof.
  intros (Hs & Ha & _) Hv Hr p'. subst p'.
  assert (Hin : scroll (elapse q (input v p)) =
                set_statusText (msg (lang (scroll p)) "searching")
                  (set_searchValue v (scroll p))).
  { rewrite scroll_elapse, scroll_input, Hs.
    unfold onInput, searchListener. cbn [ajax set_searchValue searchValue lang].
    rewrite Ha. unfold typed in Hv.
    destruct (Nat.ltb_spec (strLength (trim (toLowerCase v))) 4); [lia|done]. }
  unfold respond. cbn [scroll set_scroll]. rewrite Hin.
  destruct r; [| |discriminate]; done.
Qed.

(** ** Strings: joining and splitting *)

Lemma string_length_app (a b : string) :
  String.length (a +:+ b) = String.length a + String.length b.
Proof.
  induction a as [|c a IH]; [done|]. rewrite string_app_cons. cbn. by rewrite IH.
Qed.

Lemma substring_app (a b : string) :
  String.substring 0 (String.length a) (a +:+ b) = a.
Proof.
  induction a as [|c a IH].
  - by destruct b.
  - rewrite string_app_cons. cbn. by rewrite IH.
Qed.

Lemma split_without (sep : ascii) (s : string) :
  mentions sep s = false → split sep s = [s].
Proof.
  induction s as [|c s IH]; [done|]. cbn. intros H.
  apply orb_false_iff in H as [Hc Hs]. by rewrite Hc, IH.
Qed.

Lemma split_app (sep : ascii) (a b : string) :
  mentions sep a = false → split sep (a +:+ String sep b) = a :: split sep b.
Proof.
  induction a as [|c a IH]; intros H.
  - change ("" +:+ String sep b) with (String sep b). cbn [split].
    by rewrite Ascii.eqb_refl.
  - cbn in H. apply orb_false_iff in H as [Hc Ha].
    rewrite string_app_cons. cbn [split]. by rewrite Hc, IH.
Qed.

Lemma pretty_N_go_without_dash (x : N) (s : string) :
  mentions "-" s = false → mentions "-" (pretty_N_go x s) = false.
Proof.
  revert s. induction (N.lt_wf_0 x) as [x _ IH]; intros s Hs.
  assert (x = 0 ∨ 0 < x)%N as [->|Hx] by lia.
  - by rewrite pretty_N_go_0.
  - rewrite pretty_N_go_step by done. apply IH.
    { by apply N.div_lt. }
    cbn [mentions]. rewrite Hs. unfold pretty_N_char. by repeat case_match.
Qed.

Lemma pretty_nat_without_dash (n : nat) : mentions "-" (pretty n) = false.
Proof.
  unfold pretty, pretty_nat, pretty, pretty_N. case_decide; [done|].
  by apply pretty_N_go_without_dash.
Qed.

Lemma split_anchorId (i : nat) (v : string) :
  split "-" (anchorIdOf i v) = "parchemin" :: pretty i :: split "-" v.
Proof.
  unfold anchorIdOf.
  change ("parchemin-" +:+ pretty i +:+ "-" +:+ v)
    with ("parchemin" +:+ String "-" (pretty i +:+ String "-" v)).
  rewrite split_app by done. rewrite split_app by apply pretty_nat_without_dash. done.
Qed.

(** ** The button and the selection *)

Lemma foldl_labels (acc : string) (sel : list Opt) :
  foldl (λ acc op, acc +:+ textContent op +:+ ", ") acc sel =
  acc +:+ foldr (λ op r, textContent op +:+ ", " +:+ r) "" sel.
Proof.
  revert acc. induction sel as [|o sel IH]; intros acc.
  - cbn. by rewrite string_app_nil_r.
  - cbn [foldl foldr]. rewrite IH. by rewrite !string_app_assoc.
Qed.

Lemma labels_concat (o : Opt) (sel : list Opt) :
  foldr (λ op r, textContent op +:+ ", " +:+ r) "" (o :: sel) =
  String.concat ", " (map textContent (o :: sel)) +:+ ", ".
Proof.
  revert o. induction sel as [|o' sel IH]; intros o; [done|].
  cbn [foldr] in *. rewrite IH. cbn [map String.concat].
  by rewrite !string_app_assoc.
Qed.

Lemma drawSelectedOptions_button (s : Scroll) :
  drawSelectedOptions s = set_button (summary (lang s) (options s)) s.
Proof.
  unfold drawSelectedOptions, summary. f_equal.
  destruct (List.filter selected (options s)) as [|o sel]; [done|].
  cbn [length Nat.eqb]. rewrite foldl_labels, labels_concat.
  change ("" +:+ ?x) with x.
  rewrite string_length_app. cbn [String.length].
  replace (String.length (String.concat ", " (map textContent (o :: sel))) + 2 - 2)
    with (String.length (String.concat ", " (map textContent (o :: sel)))) by lia.
  apply substring_app.
Qed.

(** X1: [drawSelectedOptions] changes the button only, and the button then
    reads the labels of the selected options, in the order of the <select>,
    separated by a comma and a space with none at the end; it reads the
    empty message when no option is selected. *)
Theorem drawSelectedOptions_summary (s : Scroll) :
  drawSelectedOptions s = set_button (summary (lang s) (options s)) s ∧
  (List.filter selected (options s) = [] →
     button (drawSelectedOptions s) = msg (lang s) "empty") ∧
  (List.filter selected (options s) ≠ [] →
     button (drawSelectedOptions s) =
     String.concat ", " (map textContent (List.filter selected (options s)))).
Proof.
  rewrite drawSelectedOptions_button. split; [done|]. unfold summary. cbn [button set_button].
  split; [by intros ->|]. intros H. by destruct (List.filter selected (options s)).
Qed.

Lemma synced_row (s : Scroll) (k : nat) (o : Opt) :
  synced s → options s !! k = Some o →
  ∃ li, rows s !! k = Some li ∧ anchorId li = anchorIdOf (id s) (value o) ∧
        label li = textContent o.
Proof.
  unfold synced. intros Hs Ho.
  apply (f_equal (λ l, l !! k)) in Hs. cbn beta in Hs.
  change (map rowKey (rows s)) with (rowKey <$> rows s) in Hs.
  change (map ?f (options s)) with (f <$> options s) in Hs.
  rewrite !list_lookup_fmap, Ho in Hs. cbn in Hs.
  destruct (rows s !! k) as [li|]; [|discriminate].
  exists li. cbn in Hs. unfold rowKey in Hs. by injection Hs as -> ->.
Qed.

Lemma click_finds (s : Scroll) (k : nat) (o : Opt) :
  synced s → options s !! k = Some o → mentions "-" (value o) = false →
  (∀ j o', options s !! j = Some o' → j < k → value o' ≠ value o) →
  ∃ li, rows s !! k = Some li ∧
        split "-" (anchorId li) !! 2%nat = Some (value o) ∧
        list_find (λ x, value x = value o) (options s) = Some (k, o).
Proof.
  intros Hs Ho Hd Hfirst.
  destruct (synced_row s k o Hs Ho) as (li & Hli & Hid & _).
  exists li. split; [done|]. split.
  - by rewrite Hid, split_anchorId, split_without.
  - apply list_find_Some. split; [done|]. split; [done|].
    intros j o' Hj Hlt. by apply Hfirst with j.
Qed.

Lemma filter_selected_none (g : nat → bool) (l : list Opt) :
  (∀ i, g i = false) →
  List.filter selected (imap (λ i x, set_selected (g i) x) l) = [].
Proof.
  revert g. induction l as [|x l IH]; intros g Hg; [done|].
  cbn. rewrite Hg. apply (IH (g ∘ S)). intros i. apply Hg.
Qed.

Lemma filter_selected_one (k : nat) (o : Opt) (l : list Opt) :
  l !! k = Some o →
  List.filter selected (imap (λ i x, set_selected (i =? k)%nat x) l) =
  [set_selected true o].
Proof.
  revert k. induction l as [|x l IH]; intros [|k] Hk; try discriminate.
  - cbn in Hk. injection Hk as ->. cbn. f_equal.
    by apply (filter_selected_none (λ i, (S i =? 0)%nat)).
  - cbn in Hk. cbn. by apply (IH k).
Qed.

Lemma click_multiple_state (s : Scroll) (k : nat) (o : Opt) :
  synced s → multiple s = true → options s !! k = Some o →
  mentions "-" (value o) = false →
  (∀ j o', options s !! j = Some o' → j < k → value o' ≠ value o) →
  ∃ li, rows s !! k = Some li ∧
    click k s =
    set_button (summary (lang s) (<[k := set_selected (negb (selected o)) o]> (options s)))
      (set_rows (<[k := set_checked (negb (selected o)) li]> (rows s))
         (set_options (<[k := set_selected (negb (selected o)) o]> (options s)) s)).
Proof.
  intros Hs Hm Ho Hd Hfirst.
  destruct (click_finds s k o Hs Ho Hd Hfirst) as (li & Hli & Hsp & Hf).
  exists li. split; [done|]. unfold click. rewrite Hli, Hsp, Hf, Hm.
  by rewrite drawSelectedOptions_button.
Qed.

(** X2: in multiple mode, a click on the row of an option whose value has
    no dash and is the first to carry that value flips the [selected] flag
    of that option and of no other, sets the checkbox of the row to the new
    flag, and leaves on the button the summary of the new selection. *)
Theorem click_multiple_toggles (s : Scroll) (k : nat) (o : Opt) :
  synced s → multiple s = true → options s !! k = Some o →
  mentions "-" (value o) = false →
  (∀ j o', options s !! j = Some o' → j < k → value o' ≠ value o) →
  let s' := click k s in
  options s' = <[k := set_selected (negb (selected o)) o]> (options s) ∧
  (∃ li, rows s !! k = Some li ∧
         rows s' = <[k := set_checked (negb (selected o)) li]> (rows s)) ∧
  button s' = summary (lang s) (options s').
Proof.
  intros Hs Hm Ho Hd Hfirst s'.
  destruct (click_multiple_state s k o Hs Hm Ho Hd Hfirst) as (li & Hli & Hc).
  subst s'. rewrite Hc. cbn. split; [done|]. split; [|done]. by exists li.
Qed.

(** X3: in single mode, a click on the row of an option whose value has no
    dash and is the first to carry that value leaves that option selected
    and every other option unselected, and writes its label on the button;
    the rows are left as they are. *)
Theorem click_single_selects (s : Scroll) (k : nat) (o : Opt) :
  synced s → multiple s = false → options s !! k = Some o →
  mentions "-" (value o) = false →
  (∀ j o', options s !! j = Some o' → j < k → value o' ≠ value o) →
  let s' := click k s in
  List.filter selected (options s') = [set_selected true o] ∧
  options s' !! k = Some (set_selected true o) ∧
  length (options s') = length (options s) ∧
  rows s' = rows s ∧
  button s' = textContent o.
Proof.
  intros Hs Hm Ho Hd Hfirst s'.
  destruct (click_finds s k o Hs Ho Hd Hfirst) as (li & Hli & Hsp & Hf).
  assert (Hc : s' = set_button (textContent o)
            (set_options (imap (λ i x, set_selected (i =? k)%nat x) (options s)) s)).
  { subst s'. unfold click. by rewrite Hli, Hsp, Hf, Hm. }
  rewrite Hc. cbn. split; [by apply filter_selected_one|].
  split; [by rewrite list_lookup_imap, Ho, Nat.eqb_refl|].
  split; [apply length_imap|done].
Qed.

(** X4: a click on the row of an option whose value starts with a dash,
    as the default value [-1] of [addOptions] does, reads the empty string
    back from the anchor id: when no option has the empty value the click
    changes nothing. *)
Theorem click_dashed_value_ignored (s : Scroll) (k : nat) (o : Opt) (rest : string) :
  synced s → options s !! k = Some o → value o = String "-" rest →
  Forall (λ x, value x ≠ "") (options s) →
  click k s = s.
Proof.
  intros Hs Ho Hv Hne.
  destruct (synced_row s k o Hs Ho) as (li & Hli & Hid & _).
  unfold click. rewrite Hli, Hid, split_anchorId, Hv. cbn [split].
  rewrite Ascii.eqb_refl. cbn [lookup list_lookup].
  assert (Hf : list_find (λ x, value x = "") (options s) = None).
  { by apply list_find_None. }
  by rewrite Hf.
Qed.

(** ** Results replace what was there *)

Lemma replaceChoices_statusText (data : list JSObj) (t : nat) (s : Scroll) :
  statusText (replaceChoices data t s) =
  match length data with
  | 0 => msg (lang s) "noResults"
  | 1 => "1 " +:+ msg (lang s) "result"
  | n => pluralPhrase (lang s) n +:+
         (if match ajax s with
             | Some a => (maxResults a <? t)%nat
             | None => false
             end
          then qualifier (lang s) t else "")
  end.
Proof.
  unfold replaceChoices. rewrite addOptions_spec.
  destruct s; cbn [id options rows multiple search ajax lang button placeholder
    searchValue statusText statusShown wipeOptions set_rows set_options].
  unfold pluralPhrase, qualifier.
  destruct (length data) as [|[|n]]; cbn [Nat.eqb]; [done|done|].
  cbn [updateSearchBarStatus set_statusText statusText].
  by rewrite ?string_app_assoc.
Qed.

(** X5: [replaceChoices] keeps nothing of the options it finds: replacing
    twice gives the state that the second replacement alone gives. *)
Theorem replaceChoices_overrides (d d' : list JSObj) (t t' : nat) (s : Scroll) :
  replaceChoices d t (replaceChoices d' t' s) = replaceChoices d t s.
Proof.
  rewrite (replaceChoices_frame d t (replaceChoices d' t' s)).
  rewrite (replaceChoices_frame d t s).
  rewrite !replaceChoices_statusText.
  rewrite (replaceChoices_frame d' t' s).
  generalize (statusText (replaceChoices d' t' s)). intros st.
  destruct s. reflexivity.
Qed.

(** X6: when a request ends with a parsed array on a multiple-choice
    widget, whatever the page went through meanwhile, the options become
    those of the records the processor returns for the first 300 parsed
    records: the processor is handed a prefix of the array, of length the
    smaller of 300 and the length of the array, the whole array when it has
    at most 300 records. *)
Theorem response_replaces_options (a : AjaxParams) (parsed : list JSObj) (p : Page) :
  multiple (scroll p) = true →
  let s' := scroll (respond a (Parsed parsed) p) in
  let handed := take 300 parsed in
  options s' = map newOpt (processData a handed) ∧
  multiple s' = true ∧
  handed `prefix_of` parsed ∧
  length handed = 300 `min` length parsed ∧
  (length parsed ≤ 300 → handed = parsed).
Proof.
  intros Hm. cbn zeta. unfold respond, settle. cbn [scroll set_scroll].
  rewrite replaceChoices_frame.
  cbn [options multiple set_statusText set_rows set_options].
  split; [done|]. split; [done|].
  split; [apply prefix_take|]. split; [apply length_take|]. intros H. by apply take_ge.
Qed.

(** ** Messages, again *)

(** X7: after [setLang] the message table holds every built-in key and
    every key of the overrides, so that no message of the widget is ever
    undefined; the button shows the new empty message and, when the widget
    has a search bar, the placeholder and the status line show the new
    texts. *)
Theorem setLang_defines_every_message (params : Lang) (s : Scroll) :
  let s' := setLang params s in
  dom (lang s') = dom params ∪ dom defaultLang ∧
  (∀ k, is_Some (defaultLang !! k) → is_Some (lang s' !! k)) ∧
  button s' = msg (lang s') "empty" ∧
  (search s = true →
     placeholder s' = msg (lang s') "searchPlaceholder" ∧
     statusText s' = msg (lang s') "startSearch") ∧
  (search s = false → placeholder s' = placeholder s ∧ statusText s' = statusText s).
Proof.
  cbn zeta. rewrite lang_setLang. split; [apply dom_union_L|]. split.
  - intros k [v Hv]. destruct (params !! k) as [w|] eqn:Hp.
    + exists w. by apply lookup_union_Some_l.
    + exists v. by rewrite lookup_union_r.
  - unfold setLang. cbn [search set_button set_lang lang].
    destruct (search s); cbn; repeat split; intros; done.
Qed.

(** X8: [setLang] leaves the options, the rows, the selection mode, the
    search and remote settings and the typed value as they are, and calling
    it twice with the same overrides is the same as calling it once. *)
Theorem setLang_idempotent (params : Lang) (s : Scroll) :
  let s' := setLang params s in
  setLang params s' = s' ∧
  id s' = id s ∧ options s' = options s ∧ rows s' = rows s ∧
  multiple s' = multiple s ∧ search s' = search s ∧ ajax s' = ajax s ∧
  searchValue s' = searchValue s ∧ statusShown s' = statusShown s.
Proof.
  cbn zeta. unfold setLang.
  cbn [search set_button set_lang lang].
  destruct (search s) eqn:E; cbn; rewrite ?E; cbn; repeat split; done.
Qed.

(** ** Local filtering, again *)

Lemma prefix_spec (n h : string) :
  String.prefix n h = true ↔ ∃ post, h = n +:+ post.
Proof.
  revert h. induction n as [|c n IH]; intros h.
  - split; [intros _; by exists h|]. intros _. by destruct h.
  - destruct h as [|d h]; cbn.
    + split; [done|]. intros [post H]. by rewrite string_app_cons in H.
    + destruct (ascii_dec c d) as [->|Hne].
      * rewrite IH. split; intros [post H]; exists post.
        -- by rewrite string_app_cons, H.
        -- rewrite string_app_cons in H. by injection H.
      * split; [done|]. intros [post H]. rewrite string_app_cons in H.
        injection H as H1 H2. by destruct Hne.
Qed.

Lemma includes_spec (hay needle : string) :
  includes hay needle = true ↔ ∃ pre post, hay = pre +:+ needle +:+ post.
Proof.
  induction hay as [|c hay IH].
  - cbn [includes]. rewrite orb_false_r, prefix_spec. split.
    + intros [post H]. by exists "", post.
    + intros (pre & post & H). destruct pre as [|x pre]; [by exists post|].
      by rewrite string_app_cons in H.
  - cbn [includes]. rewrite orb_true_iff, prefix_spec, IH. split.
    + intros [[post H]|(pre & post & H)].
      * by exists "", post.
      * exists (String c pre), post. by rewrite string_app_cons, H.
    + intros (pre & post & H). destruct pre as [|x pre].
      * left. by exists post.
      * right. rewrite string_app_cons in H. injection H as _ H. by exists pre, post.
Qed.

Lemma includes_trans (a b c : string) :
  includes a b = true → includes b c = true → includes a c = true.
Proof.
  rewrite !includes_spec. intros (p1 & s1 & ->) (p2 & s2 & ->).
  exists (p1 +:+ p2), (s2 +:+ s1). by rewrite !string_app_assoc.
Qed.

(** X10: on a widget without remote search, a query that contains an
    earlier query (both lower-cased and trimmed) displays no row the earlier
    query hid: typing on only narrows the list. *)
Theorem longer_query_narrows (v1 v2 : string) (s : Scroll) (k : nat) (r1 r2 : Row) :
  ajax s = None → includes (typed v2) (typed v1) = true →
  rows (onInput v1 s) !! k = Some r1 → rows (onInput v2 s) !! k = Some r2 →
  hidden r1 = true → hidden r2 = true.
Proof.
  intros Ha Hinc. rewrite !onInput_local by done. cbn [rows set_rows].
  change (map ?f (rows s)) with (f <$> rows s). rewrite !list_lookup_fmap.
  destruct (rows s !! k) as [li|]; [|discriminate]. cbn.
  intros [= <-] [= <-]. unfold filterRow.
  destruct (includes (trim (toLowerCase (label li))) (typed v1)) eqn:E1; [discriminate|].
  intros _.
  destruct (includes (trim (toLowerCase (label li))) (typed v2)) eqn:E2; [|done].
  by rewrite (includes_trans _ _ _ E2 Hinc) in E1.
Qed.

(** ** Without a listener, no request *)

(** X11: a page with no [addAjax] listener and no pending timer never
    makes a network call, whatever is typed and however long one waits, as
    long as [addAjax] is not called.  This is the state [addAjax] leaves when
    it is called before [addSearch]: the parameters are recorded, no
    listener is installed. *)
Theorem no_listener_no_call (p : Page) (es : list Event) :
  debounce p = [] → timers p = [] → Forall (λ e, isAddAjax e = false) es →
  fetches (run es p) = fetches p ∧ timers (run es p) = [] ∧ debounce (run es p) = [].
Proof.
  unfold run. revert p. induction es as [|e es IH]; intros p Hd Ht Hes; [done|].
  apply Forall_cons in Hes as [He Hes]. cbn [foldl].
  destruct (quiet_step p e He Hd Ht) as (Hd' & Ht' & Hf').
  destruct (IH (step p e) Hd' Ht' Hes) as (Hf & Ht'' & Hd'').
  by rewrite Hf, Hf'.
Qed.

(** ** The delay *)

(** X12: after a keystroke on a widget given a search bar and, later,
    remote search by one call of [addAjax], each called that once, no call is
    made before 1000 milliseconds have passed; once they have, one call is
    made with the lower-cased, trimmed value when its length is at least
    [minLength], and none when it is shorter. *)
Theorem keystroke_then_wait (i : nat) (opts : list Opt) (mult : bool)
    (before between : list Event) (params : AjaxInput) (es : list Event)
    (v : string) (dt : nat) :
  Forall (λ e, keepsListeners e = true) before →
  Forall (λ e, keepsListeners e = true) between →
  Forall (λ e, keepsListeners e = true) es →
  let a := processAjaxParams params in
  let p := remoteWidget i opts mult before between params es in
  (dt < 1000 → fetches (elapse dt (input v p)) = fetches p) ∧
  (1000 ≤ dt → strLength (typed v) < minLength a →
     fetches (elapse dt (input v p)) = fetches p) ∧
  (1000 ≤ dt → minLength a ≤ strLength (typed v) →
     fetches (elapse dt (input v p)) = fetches p ++ [(a, typed v)]).
Proof.
  intros Hb Hbt Hes a p.
  assert (Hp : remoteReady a p) by by apply remoteWidget_ready.
  pose proof (input_armed a v p Hp) as Harm. split; [|split].
  - intros Hdt. by destruct (elapse_short a v _ dt _ Harm Hdt) as (_ & Hf & _).
  - intros Hdt Hv. destruct (elapse_long a v _ dt _ Harm Hdt) as (Hf & _).
    rewrite Hf. unfold callFor.
    destruct (Nat.leb_spec (minLength a) (strLength (typed v))); [lia|].
    by rewrite app_nil_r.
  - intros Hdt Hv. destruct (elapse_long a v _ dt _ Harm Hdt) as (Hf & _).
    rewrite Hf. unfold callFor.
    by destruct (Nat.leb_spec (minLength a) (strLength (typed v))); [|lia].
Qed.

Lemma spaced_armed (a : AjaxParams) (more : list (nat * string)) (v : string)
    (f : list (AjaxParams * string)) (p : Page) :
  armed a v f p → Forall (λ e, 1000 ≤ e.1) more →
  ∃ f', armed a (lastTyped v more) f' (foldl (λ q e, input e.2 (elapse e.1 q)) p more) ∧
        f' ++ callFor a (lastTyped v more) =
        f ++ concat (map (callFor a) (v :: map snd more)).
Proof.
  revert v f p. induction more as [|e more IH]; intros v f p Hp Hm.
  - exists f. split; [done|]. cbn. by rewrite app_nil_r.
  - apply Forall_cons in Hm as [He Hm]. cbn [foldl]. rewrite lastTyped_cons.
    destruct (elapse_long a v f e.1 p Hp He) as (Hf & _ & Hr).
    pose proof (input_armed a e.2 _ Hr) as Harm. rewrite Hf in Harm.
    destruct (IH e.2 _ _ Harm Hm) as (f' & Harm' & Heq).
    exists f'. split; [done|]. rewrite Heq. cbn [map concat]. by rewrite <- app_assoc.
Qed.

(** X13: on a widget given a search bar and, later, remote search by one
    call of [addAjax], each called that once, keystrokes that are each
    at least 1000 milliseconds after the one before are not merged: once the
    delay has passed after the last one, the calls made are, in order, one
    for each keystroke whose lower-cased, trimmed value has a length of at
    least [minLength]. *)
Theorem spaced_keystrokes_each_call (i : nat) (opts : list Opt) (mult : bool)
    (before between : list Event) (params : AjaxInput) (es : list Event)
    (v0 : string) (more : list (nat * string)) (q : nat) :
  Forall (λ e, keepsListeners e = true) before →
  Forall (λ e, keepsListeners e = true) between →
  Forall (λ e, keepsListeners e = true) es →
  Forall (λ e, 1000 ≤ e.1) more → 1000 ≤ q →
  let a := processAjaxParams params in
  let p := remoteWidget i opts mult before between params es in
  fetches (elapse q (typeBurst v0 more p)) =
  fetches p ++ concat (map (callFor a) (v0 :: map snd more)).
Proof.
  intros Hb Hbt Hes Hm Hq a p. unfold typeBurst.
  assert (Hp : remoteReady a p) by by apply remoteWidget_ready.
  destruct (spaced_armed a more v0 _ _ (input_armed a v0 p Hp) Hm) as (f' & Harm & Heq).
  destruct (elapse_long a _ _ q _ Harm Hq) as (Hf & _). by rewrite Hf, Heq.
Qed.

(** ** A remote search from the keystroke to the results *)

Lemma multiple_step (p : Page) (e : Event) :
  multiple (scroll (step p e)) = multiple (scroll p).
Proof.
  destruct e; cbn [step onScroll scroll set_scroll respond]; try done.
  - unfold click. repeat case_match; done.
  - unfold addAjax. cbn. by destruct (search (scroll p)).
  - unfold setLang. cbn. by destruct (search (scroll p)).
  - rewrite scroll_input. destruct (search (scroll p)); [|done].
    unfold onInput, searchListener. cbn [ajax set_searchValue].
    destruct (ajax (scroll p)); [case_match|]; done.
  - by rewrite scroll_elapse.
  - destruct r; cbn [settle]; try done. by rewrite replaceChoices_frame.
  - by rewrite addOptions_spec.
  - by rewrite replaceChoices_frame.
Qed.

Lemma multiple_run (es : list Event) (p : Page) :
  multiple (scroll (run es p)) = multiple (scroll p).
Proof.
  unfold run. revert p. induction es as [|e es IH]; intros p; [done|].
  cbn [foldl]. by rewrite IH, multiple_step.
Qed.

Lemma multiple_remoteWidget (i : nat) (opts : list Opt) (mult : bool)
    (before between : list Event) (params : AjaxInput) (es : list Event) :
  multiple (scroll (remoteWidget i opts mult before between params es)) = mult.
Proof.
  unfold remoteWidget. rewrite multiple_run.
  rewrite (multiple_step _ (AddAjax params) : multiple (scroll (addAjax params _)) = _).
  rewrite multiple_run.
  rewrite (multiple_step _ AddSearch : multiple (scroll (onScroll addSearch _)) = _).
  by rewrite multiple_run.
Qed.

(** X14: a whole remote search.  On a multiple-choice widget given a
    search bar and, later, remote search by one call of [addAjax], each
    called that once, a keystroke whose lower-cased, trimmed value has a
    length of at least four and at least [minLength] keeps the options,
    shows the searching message and, after 1000 milliseconds, makes one call
    with that value; when the answer is an array of at most 300 and at most
    [maxResults] records, the options are those the processor returns and
    the status line gives their count, without qualifier. *)
Theorem remote_search_round_trip (i : nat) (opts : list Opt)
    (before between : list Event) (params : AjaxInput) (es : list Event)
    (v : string) (parsed : list JSObj) (q : nat) :
  Forall (λ e, keepsListeners e = true) before →
  Forall (λ e, keepsListeners e = true) between →
  Forall (λ e, keepsListeners e = true) es →
  let a := processAjaxParams params in
  let p := remoteWidget i opts true before between params es in
  4 ≤ strLength (typed v) → minLength a ≤ strLength (typed v) → 1000 ≤ q →
  length parsed ≤ 300 → length parsed ≤ maxResults a →
  let p1 := elapse q (input v p) in
  let p2 := respond a (Parsed parsed) p1 in
  multiple (scroll p1) = true ∧
  fetches p1 = fetches p ++ [(a, typed v)] ∧
  options (scroll p1) = options (scroll p) ∧
  statusText (scroll p1) = msg (lang (scroll p)) "searching" ∧
  options (scroll p2) = map newOpt (processData a parsed) ∧
  statusText (scroll p2) = countPhrase (lang (scroll p)) (length (processData a parsed)).
Proof.
  intros Hb Hbt Hes a p Hv4 Hv Hq H300 Hmax p1 p2.
  assert (Hp : remoteReady a p) by by apply remoteWidget_ready.
  pose proof Hp as (Hs & Ha & _).
  assert (Hin : scroll p1 = set_statusText (msg (lang (scroll p)) "searching")
                             (set_searchValue v (scroll p))).
  { subst p1. rewrite scroll_elapse, scroll_input, Hs.
    unfold onInput, searchListener. cbn [ajax set_searchValue searchValue lang].
    rewrite Ha. unfold typed in Hv4.
    destruct (Nat.ltb_spec (strLength (trim (toLowerCase v))) 4); [lia|done]. }
  split.
  { rewrite Hin. cbn [multiple set_statusText set_searchValue].
    subst p. apply multiple_remoteWidget. }
  split.
  { subst p1. destruct (elapse_long a v _ q _ (input_armed a v p Hp) Hq) as (Hf & _).
    rewrite Hf. unfold callFor.
    by destruct (Nat.leb_spec (minLength a) (strLength (typed v))); [|lia]. }
  rewrite Hin. cbn [options statusText set_statusText set_searchValue].
  split; [done|]. split; [done|].
  subst p2. unfold respond, settle. cbn [scroll set_scroll]. rewrite Hin.
  rewrite (take_ge parsed 300 H300). split.
  - by rewrite replaceChoices_frame.
  - rewrite replaceChoices_statusText. cbn [lang ajax set_statusText set_searchValue].
    rewrite Ha. unfold countPhrase.
    destruct (length (processData a parsed)) as [|[|n]]; [done|done|].
    destruct (Nat.ltb_spec (maxResults a) (length parsed)); [lia|].
    by rewrite string_app_nil_r.
Qed.

(** ** The registry *)

Lemma scrollIds_build (n : Node) (r : Registry) :
  scrollIds (Parchemin.build n r) = scrollIds r ++ [S (count r)] ∧
  count (Parchemin.build n r) = S (count r).
Proof. unfold Parchemin.build, scrollIds. cbn. by rewrite map_app. Qed.

Lemma forward_ids (f : Page → Page) (n : Node) (r : Registry) :
  (∀ pg, id (scroll (f pg)) = id (scroll pg)) →
  scrollIds (Parchemin.forward f n r) = scrollIds r ∧
  count (Parchemin.forward f n r) = count r.
Proof.
  intros Hf. unfold Parchemin.forward, Parchemin.getScrollFromNode.
  destruct (list_find _ _) as [[j e]|] eqn:E; [|done].
  apply list_find_Some in E as (Hj & _). unfold scrollIds. cbn. split; [|done].
  apply (map_insert_same _ _ _ _ e); [done|]. cbn. apply Hf.
Qed.

Lemma id_addSearch (s : Scroll) : id (addSearch s) = id s.
Proof. done. Qed.

Lemma id_setLang (params : Lang) (s : Scroll) : id (setLang params s) = id s.
Proof. unfold setLang. cbn. by destruct (search s). Qed.

Lemma id_addAjax (params : AjaxInput) (pg : Page) :
  id (scroll (addAjax params pg)) = id (scroll pg).
Proof. unfold addAjax. cbn. by destruct (search (scroll pg)). Qed.

Lemma ids_call (r : Registry) (c : Call) :
  scrollIds r = seq 1 (count r) → scrollIds (call r c) = seq 1 (count (call r c)).
Proof.
  assert (Hb : ∀ n r, scrollIds r = seq 1 (count r) →
                 scrollIds (Parchemin.build n r) = seq 1 (count (Parchemin.build n r))).
  { intros n r' Hr. destruct (scrollIds_build n r') as [-> ->].
    by rewrite seq_S, Hr. }
  destruct c; cbn [call];
    unfold Parchemin.addSearch, Parchemin.addAjax, Parchemin.setLang.
  - unfold Parchemin.init. revert r. induction targets as [|tar targets IH]; intros r Hr; [done|].
    cbn [foldl]. apply IH. destruct (isSelect tar); [by apply Hb|done].
  - apply Hb.
  - intros Hr. destruct (forward_ids (onScroll addSearch) n r) as [-> ->]; done.
  - intros Hr. destruct (forward_ids (addAjax params) n r (id_addAjax params)) as [-> ->]; done.
  - intros Hr. destruct (forward_ids (onScroll (setLang params)) n r) as [-> ->]; [|done].
    intros pg. cbn. apply id_setLang.
Qed.

(** X15: whatever calls the host page makes on the registry, the Scrolls
    carry the ids 1, 2, 3, ... in the order they were built, the counter
    being their number: no two Scrolls share an id. *)
Theorem scroll_ids_unique (cs : list Call) :
  let r := calls cs Parchemin.new in
  scrollIds r = seq 1 (length (scrolls r)) ∧ count r = length (scrolls r) ∧
  NoDup (scrollIds r).
Proof.
  cbn zeta. assert (H : scrollIds (calls cs Parchemin.new) =
                        seq 1 (count (calls cs Parchemin.new))).
  { unfold calls. assert (H0 : scrollIds Parchemin.new = seq 1 (count Parchemin.new)) by done.
    revert H0. generalize Parchemin.new. induction cs as [|c cs IH]; intros r Hr; [done|].
    cbn [foldl]. apply IH. by apply ids_call. }
  assert (Hc : count (calls cs Parchemin.new) = length (scrolls (calls cs Parchemin.new))).
  { apply (f_equal length) in H. unfold scrollIds in H.
    by rewrite length_map, length_seq in H. }
  split; [by rewrite <- Hc|]. split; [done|]. rewrite H. apply NoDup_seq.
Qed.

(** X16: [init] builds a Scroll for each <select> among the elements it
    is given, in their order, and for no other element. *)
Theorem init_builds_selects_only (targets : list Node) (r : Registry) :
  map node (scrolls (Parchemin.init targets r)) =
  map node (scrolls r) ++ List.filter isSelect targets.
Proof.
  unfold Parchemin.init. revert r. induction targets as [|tar targets IH]; intros r.
  - cbn. by rewrite app_nil_r.
  - cbn [foldl List.filter]. rewrite IH. destruct (isSelect tar); [|done].
    unfold Parchemin.build. cbn. by rewrite map_app, <- app_assoc.
Qed.

Lemma forward_found (f : Page → Page) (n : Node) (r : Registry) (j : nat) (e : Entry) :
  Parchemin.getScrollFromNode n r = Some (j, e) →
  scrolls (Parchemin.forward f n r) = <[j := mkEntry (node e) (f (page e))]> (scrolls r) ∧
  Parchemin.getScrollFromNode n (Parchemin.forward f n r) =
    Some (j, mkEntry (node e) (f (page e))).
Proof.
  intros Hf. unfold Parchemin.forward. rewrite Hf. cbn [scrolls]. split; [done|].
  unfold Parchemin.getScrollFromNode in *. cbn [scrolls].
  apply list_find_Some in Hf as (Hj & Hn & Hfirst). apply list_find_Some.
  split; [|split].
  - apply list_lookup_insert_eq. by eapply lookup_lt_Some.
  - done.
  - intros i y Hi Hlt. rewrite list_lookup_insert_ne in Hi by lia. by apply Hfirst with i.
Qed.

(** X17: [addSearch], [addAjax] and [setLang] of the registry do nothing
    for a node whose id no Scroll is bound to. *)
Theorem registry_calls_skip_unknown_node (n : Node) (params : AjaxInput) (overrides : Lang)
    (r : Registry) :
  Forall (λ e, nodeId (node e) ≠ nodeId n) (scrolls r) →
  Parchemin.addSearch n r = r ∧ Parchemin.addAjax n params r = r ∧
  Parchemin.setLang n overrides r = r.
Proof.
  intros Hn.
  assert (Hf : Parchemin.getScrollFromNode n r = None) by by apply list_find_None.
  unfold Parchemin.addSearch, Parchemin.addAjax, Parchemin.setLang, Parchemin.forward.
  by rewrite Hf.
Qed.

(** X18: a call forwarded by the registry ([addSearch], [addAjax] and
    [setLang] all go through [forward]) reaches the first Scroll bound to a
    node with the given id and no other: that entry keeps its node and has
    the call applied to its page, every other entry, one bound to a node
    with the same id included, is left as it is, and the counter does not
    move. *)
Theorem forward_first_match_only (f : Page → Page) (n : Node) (r : Registry)
    (j : nat) (e : Entry) :
  scrolls r !! j = Some e → nodeId (node e) = nodeId n →
  (∀ i e', scrolls r !! i = Some e' → i < j → nodeId (node e') ≠ nodeId n) →
  let r' := Parchemin.forward f n r in
  scrolls r' !! j = Some (mkEntry (node e) (f (page e))) ∧
  (∀ k, k ≠ j → scrolls r' !! k = scrolls r !! k) ∧
  length (scrolls r') = length (scrolls r) ∧ count r' = count r.
Proof.
  intros Hj Hn Hfirst r'.
  assert (Hf : Parchemin.getScrollFromNode n r = Some (j, e)).
  { apply list_find_Some. split; [done|]. split; [done|].
    intros i y Hi Hlt. by apply Hfirst with i. }
  destruct (forward_found f n r j e Hf) as (Hs & _). subst r'. rewrite Hs.
  split; [|split; [|split]].
  - apply list_lookup_insert_eq. by eapply lookup_lt_Some.
  - intros k Hk. by rewrite list_lookup_insert_ne.
  - apply length_insert.
  - unfold Parchemin.forward. by rewrite Hf.
Qed.

(** X19: the documented chain.  For the first Scroll bound to a node with
    the given id, freshly built, [addSearch] then [addAjax] leave a page
    ready for remote search with the processed parameters and one
    listener; [addAjax] then [addSearch] leave a search bar and the
    parameters but no listener. *)
Theorem chain_order_matters (n : Node) (params : AjaxInput) (r : Registry)
    (j : nat) (e : Entry) :
  Parchemin.getScrollFromNode n r = Some (j, e) →
  search (scroll (page e)) = false → debounce (page e) = [] → timers (page e) = [] →
  (∃ e1, scrolls (Parchemin.addAjax n params (Parchemin.addSearch n r)) !! j = Some e1 ∧
         remoteReady (processAjaxParams params) (page e1)) ∧
  (∃ e2, scrolls (Parchemin.addSearch n (Parchemin.addAjax n params r)) !! j = Some e2 ∧
         search (scroll (page e2)) = true ∧
         ajax (scroll (page e2)) = Some (processAjaxParams params) ∧
         debounce (page e2) = []).
Proof.
  intros Hf Hs Hd Ht.
  assert (Hlt : j < length (scrolls r)).
  { apply list_find_Some in Hf as (Hj & _). by eapply lookup_lt_Some. }
  split.
  - unfold Parchemin.addAjax, Parchemin.addSearch.
    destruct (forward_found (onScroll addSearch) n r j e Hf) as (Hs1 & Hf1).
    destruct (forward_found (addAjax params) n _ j _ Hf1) as (Hs2 & _).
    rewrite Hs2. eexists. split.
    + apply list_lookup_insert_eq. by rewrite Hs1, length_insert.
    + cbn [page node]. unfold remoteReady, addAjax, onScroll.
      cbn. repeat split. exists None. by rewrite Hd, Ht.
  - unfold Parchemin.addAjax, Parchemin.addSearch.
    destruct (forward_found (addAjax params) n r j e Hf) as (Hs1 & Hf1).
    destruct (forward_found (onScroll addSearch) n _ j _ Hf1) as (Hs2 & _).
    rewrite Hs2. eexists. split.
    + apply list_lookup_insert_eq. by rewrite Hs1, length_insert.
    + cbn [page node]. unfold addAjax, onScroll. cbn [scroll ajax search set_ajax].
      rewrite Hs. cbn. done.
Qed.

(** ** More on the selection *)

(** X20: in multiple mode, two clicks on the row of an option whose value
    has no dash and is the first to carry that value give back the
    selection there was: the options are those before the clicks, the
    checkbox of the row shows the flag of the option, and the button reads
    the summary of that selection. *)
Theorem click_twice_restores (s : Scroll) (k : nat) (o : Opt) :
  synced s → multiple s = true → options s !! k = Some o →
  mentions "-" (value o) = false →
  (∀ j o', options s !! j = Some o' → j < k → value o' ≠ value o) →
  let s'' := click k (click k s) in
  options s'' = options s ∧
  (∃ li, rows s !! k = Some li ∧ rows s'' = <[k := set_checked (selected o) li]> (rows s)) ∧
  button s'' = summary (lang s) (options s).
Proof.
  intros Hs Hm Ho Hd Hfirst s''.
  destruct (click_multiple_state s k o Hs Hm Ho Hd Hfirst) as (li & Hli & Hc).
  assert (Hlt : k < length (options s)) by by eapply lookup_lt_Some.
  assert (Hlt' : k < length (rows s)) by by eapply lookup_lt_Some.
  assert (Hs1 : synced (click k s)) by by apply synced_click.
  destruct (click_multiple_state (click k s) k (set_selected (negb (selected o)) o))
    as (li' & Hli' & Hc').
  - done.
  - by rewrite Hc.
  - rewrite Hc. cbn. by apply list_lookup_insert_eq.
  - done.
  - intros j o' Hj Hjk. rewrite Hc in Hj. cbn in Hj.
    rewrite list_lookup_insert_ne in Hj by lia. cbn. by apply Hfirst with j.
  - subst s''. rewrite Hc'. rewrite Hc in Hli' |- *.
    cbn [options rows lang button set_button set_rows set_options] in *.
    rewrite list_lookup_insert_eq in Hli' by done. injection Hli' as <-.
    rewrite !list_insert_insert_eq.
    assert (Ho' : set_selected (negb (selected (set_selected (negb (selected o)) o)))
                    (set_selected (negb (selected o)) o) = o).
    { destruct o as [v t c b]. cbn. by rewrite negb_involutive. }
    rewrite Ho', (list_insert_id _ _ _ Ho). split; [done|]. split; [|done].
    exists li. split; [done|]. f_equal. unfold set_checked. cbn.
    by rewrite negb_involutive.
Qed.

(** X21: on a multiple-choice widget a replacement discards the
    selection: after [replaceChoices] no option is selected and the summary
    of the selection is the empty message; the button, which
    [replaceChoices] does not write, keeps its text. *)
Theorem replaceChoices_discards_selection (data : list JSObj) (t : nat) (s : Scroll) :
  multiple s = true →
  let s' := replaceChoices data t s in
  multiple s' = true ∧
  Forall (λ o, selected o = false) (options s') ∧
  summary (lang s') (options s') = msg (lang s) "empty" ∧
  button s' = button s.
Proof.
  intros Hm. cbn zeta. rewrite replaceChoices_frame.
  cbn [options multiple lang button set_statusText set_rows set_options].
  assert (Hsel : Forall (λ o, selected o = false) (map newOpt data)).
  { apply List.Forall_map, Forall_forall. by intros r _. }
  split; [done|]. split; [done|]. split; [|done]. unfold summary.
  assert (Hf : List.filter selected (map newOpt data) = []).
  { clear Hsel. induction data as [|r data IH]; [done|]. cbn. exact IH. }
  by rewrite Hf.
Qed.

(** X22: only a click and [setLang] write the button: typing, time
    passing, requests ending, [addSearch], [addAjax], [wipeOptions],
    [addOptions] and [replaceChoices] leave its text as it is, as they leave
    the selection mode. *)
Theorem button_written_by_click_and_setLang_only (p : Page) (e : Event) :
  (∀ k, e ≠ Click k) → (∀ params, e ≠ SetLang params) →
  button (scroll (step p e)) = button (scroll p) ∧
  multiple (scroll (step p e)) = multiple (scroll p).
Proof.
  intros Hc Hl. destruct e; cbn [step onScroll scroll set_scroll respond].
  - by destruct (Hc k).
  - done.
  - unfold addAjax. cbn. by destruct (search (scroll p)).
  - by destruct (Hl params).
  - rewrite scroll_input. destruct (search (scroll p)); [|done].
    unfold onInput, searchListener. cbn [ajax set_searchValue].
    destruct (ajax (scroll p)); [case_match|]; done.
  - by rewrite scroll_elapse.
  - destruct r; cbn [settle]; try done. by rewrite replaceChoices_frame.
  - done.
  - by rewrite addOptions_spec.
  - by rewrite replaceChoices_frame.
Qed.

End Generic.

(** * Examples

    The instances and evaluations below are computed with the built-ins on
    ASCII text. *)

#[global] Existing Instance asciiBuiltins.

Lemma replaceChoices_status_witness :
  let s := scroll (remotePage None (Some 2)) in
  let data := [recordOf "1" "one"; recordOf "2" "two"; recordOf "3" "three"] in
  let s' := replaceChoices data 5 s in
  length (options s') = 3 ∧ length (rows s') = 3 ∧
  (3 = 0 → statusText s' = msg (lang s) "noResults") ∧
  (3 = 1 → statusText s' = "1 " +:+ msg (lang s) "result") ∧
  (1 < 3 →
     (statusText s' = pluralPhrase (lang s) 3 +:+ qualifier (lang s) 5 ↔ 2 < 5) ∧
     (statusText s' = pluralPhrase (lang s) 3 ↔ 5 ≤ 2)).
Proof.
  exact (replaceChoices_status
           (processAjaxParams (mkAjaxInput sampleRequest passThrough None (Some 2)))
           [recordOf "1" "one"; recordOf "2" "two"; recordOf "3" "three"] 5
           (scroll (remotePage None (Some 2))) eq_refl).
Defined.

Lemma setLang_merges_onto_defaults_witness :
  (∀ v, ({[ "error" := "Oops" ]} : Lang) !! "error" = Some v →
        lang (setLang {[ "error" := "Oops" ]} (scroll localPage)) !! "error" = Some v) ∧
  (({[ "error" := "Oops" ]} : Lang) !! "empty" = None →
        lang (setLang {[ "error" := "Oops" ]} (scroll localPage)) !! "empty"
        = defaultLang !! "empty").
Proof.
  split.
  - exact (proj1 (setLang_merges_onto_defaults {[ "error" := "Oops" ]} (scroll localPage) "error")).
  - exact (proj2 (setLang_merges_onto_defaults {[ "error" := "Oops" ]} (scroll localPage) "empty")).
Defined.

(** C4 as the specification words it fails: an override made by an
    earlier call and left out of a later one is lost. *)
Lemma setLang_forgets_earlier_override :
  let s1 := setLang {[ "empty" := "Choose" ]} (scroll localPage) in
  let s2 := setLang {[ "error" := "Oops" ]} s1 in
  ({[ "error" := "Oops" ]} : Lang) !! "empty" = None ∧
  lang s1 !! "empty" = Some "Choose" ∧
  lang s2 !! "empty" ≠ lang s1 !! "empty".
Proof. vm_compute. repeat split; discriminate. Qed.

Lemma failure_only_sets_status_witness :
  let p := input "hello world" (remotePage None None) in
  let p' := respond (processAjaxParams (mkAjaxInput sampleRequest passThrough None None))
                    NetworkFailure p in
  options (scroll p') = options (scroll p) ∧
  rows (scroll p') = rows (scroll p) ∧
  statusText (scroll p') = msg (lang (scroll p)) "error" ∧
  p' = set_scroll (set_statusText (msg (lang (scroll p)) "error") (scroll p)) p ∧
  (∀ v, search (scroll p) = true → is_Some (ajax (scroll p)) →
        input v p' = input v p).
Proof.
  exact (failure_only_sets_status
           (processAjaxParams (mkAjaxInput sampleRequest passThrough None None))
           NetworkFailure (input "hello world" (remotePage None None)) eq_refl).
Defined.

Lemma addOptions_defaults_witness :
  let opt : JSObj := {[ "text" := JStr "Gamma" ]} in
  let s := scroll localPage in
  options (addOptions [opt] s) = options s ++ [mkOpt "-1" "Gamma" "" false] ∧
  value (newOpt opt) = "-1" ∧ textContent (newOpt opt) = "Gamma" ∧
  className (newOpt opt) = "".
Proof.
  pose proof (addOptions_defaults [{[ "text" := JStr "Gamma" ]}] (scroll localPage)
                {[ "text" := JStr "Gamma" ]}) as (Ho & Hv & _ & Hc & _ & Ht & _).
  split; [exact Ho|].
  split; [exact (proj2 (Hv eq_refl))|].
  split; [exact (proj2 (Ht (JStr "Gamma") eq_refl))|].
  exact (proj2 (Hc eq_refl)).
Defined.

Lemma local_filter_idempotent_witness :
  let p1 := input " AL" localPage in
  input " AL" p1 = p1 ∧
  options (scroll p1) = options (scroll localPage) ∧
  map visible (rows (scroll p1)) = [true; false].
Proof.
  pose proof (local_filter_idempotent " AL" localPage eq_refl eq_refl) as (H1 & H2 & H3).
  split; [exact H1|]. split; [exact H2|]. exact (H3 eq_refl).
Defined.

Lemma burst_makes_at_most_one_call_witness :
  let params := mkAjaxInput sampleRequest passThrough None None in
  let a := processAjaxParams params in
  let p := remoteWidget 1 [optAlpha; optBeta] true [Click 1] [Input "al"] params
             [Click 0; Input "x"; Elapse 2000] in
  let p' := typeBurst "hel" [(200, "hell"); (300, "Hello ")] p in
  length (timers p') = 1 ∧ fetches p' = [] ∧
  timers (elapse 1000 p') = [] ∧ fetches (elapse 1000 p') = [(a, "hello")].
Proof.
  assert (Hb : Forall (λ e : Event, keepsListeners e = true) [Click 1]).
  { repeat (apply Forall_cons; split; [reflexivity|]). constructor. }
  assert (Hbt : Forall (λ e : Event, keepsListeners e = true) [Input "al"]).
  { repeat (apply Forall_cons; split; [reflexivity|]). constructor. }
  assert (Hes : Forall (λ e : Event, keepsListeners e = true)
                  [Click 0; Input "x"; Elapse 2000]).
  { repeat (apply Forall_cons; split; [reflexivity|]). constructor. }
  assert (Hm : Forall (λ e : nat * string, e.1 < 1000) [(200, "hell"); (300, "Hello ")]).
  { repeat (apply Forall_cons; split; [cbn; lia|]). constructor. }
  destruct (burst_makes_at_most_one_call 1 [optAlpha; optBeta] true
              [Click 1] [Input "al"]
              (mkAjaxInput sampleRequest passThrough None None)
              [Click 0; Input "x"; Elapse 2000]
              "hel" [(200, "hell"); (300, "Hello ")] 1000 Hb Hbt Hes Hm (le_n 1000))
    as (_ & H1 & H2 & H3 & H4).
  cbv zeta in *.
  split; [exact H1|]. split; [rewrite H2; vm_compute; reflexivity|].
  split; [exact H3|]. rewrite H4. vm_compute. reflexivity.
Defined.

(** C7 as the specification words it fails: a burst that ends on a value
    shorter than [minLength] makes no network call at all. *)
Lemma short_burst_makes_no_call :
  let p := remoteWidget 1 [optAlpha; optBeta] true [] []
             (mkAjaxInput sampleRequest passThrough None None) [] in
  let p' := typeBurst "a" [(10, "ab")] p in
  Forall (λ e, e.1 < 1000) [(10, "ab")] ∧
  fetches (elapse 1000 p') = [] ∧
  ¬ (∃ c, fetches (elapse 1000 p') = fetches p ++ [c]).
Proof.
  split; [repeat (apply Forall_cons; split; [cbn; lia|]); constructor|].
  split; [vm_compute; reflexivity|]. intros [c Hc]. vm_compute in Hc. discriminate.
Qed.

(** C1 at [minLength = 6] and the query ["hello"]: the query is shorter
    than the configured minimum and no network call is made for it, yet the
    options and the rows are kept and the status line shows the searching
    message: the input listener compares the length with 4. *)
Theorem min_length_alert_compares_with_four :
  let p := remotePage (Some 6) None in
  let p' := input "hello" p in
  (∃ a, ajax (scroll p) = Some a ∧ String.length (typed "hello") < minLength a) ∧
  options (scroll p') = [optAlpha; optBeta] ∧
  length (rows (scroll p')) = 2 ∧
  statusText (scroll p') = msg (lang (scroll p)) "searching" ∧
  statusText (scroll p') ≠ msg (lang (scroll p)) "minLengthAlert" ∧
  fetches (elapse 1000 p') = [].
Proof.
  split.
  { exists (processAjaxParams (mkAjaxInput sampleRequest passThrough (Some 6) None)).
    split; [reflexivity|]. vm_compute. lia. }
  vm_compute. repeat split. discriminate.
Qed.

(** C2 at [maxResults = 2] and a response of three records: the result
    processor is handed all three, the cut being made at 300. *)
Theorem truncation_cuts_at_three_hundred :
  let a := processAjaxParams (mkAjaxInput sampleRequest passThrough None (Some 2)) in
  let parsed := [recordOf "1" "one"; recordOf "2" "two"; recordOf "3" "three"] in
  let p' := respond a (Parsed parsed) (remotePage None (Some 2)) in
  maxResults a = 2 ∧
  ajax (scroll (remotePage None (Some 2))) = Some a ∧
  map value (options (scroll p')) = ["1"; "2"; "3"] ∧
  map label (rows (scroll p')) = ["one"; "two"; "three"] ∧
  statusText (scroll p') = "3 résultats trouvés. (3 en tout, affinez votre recherche)".
Proof. repeat split. Qed.

(** C9 on a multiple-choice widget whose first option was chosen: the
    button shows the label of the choice; after [setLang] the option is
    still selected and the button shows the empty-selection message. *)
Theorem setLang_overwrites_selection_summary :
  let s := click 0 (scroll localPage) in
  let s' := setLang (∅ : Lang) s in
  map selected (options s) = [true; false] ∧ button s = "Alpha" ∧
  map selected (options s') = [true; false] ∧
  button s' = msg (lang s') "empty" ∧ button s' ≠ "Alpha".
Proof. vm_compute. repeat split. discriminate. Qed.

(** Each call of [addAjax] installs a listener of its own: after two
    calls a keystroke leaves two timers pending and both make the call. *)
Lemma two_listeners_two_calls :
  let params := mkAjaxInput sampleRequest passThrough None None in
  let p := input "hello" (addAjax params (remotePage None None)) in
  length (timers p) = 2 ∧ map snd (fetches (elapse 1000 p)) = ["hello"; "hello"].
Proof. split; reflexivity. Qed.

Lemma drawSelectedOptions_summary_witness :
  let s := set_options [set_selected true optAlpha; optBeta; set_selected true optBeta]
             (scroll localPage) in
  button (drawSelectedOptions s) = "Alpha, Beta" ∧
  button (drawSelectedOptions (scroll localPage)) = "Sélectionnez une valeur".
Proof.
  split.
  - rewrite (proj2 (proj2 (drawSelectedOptions_summary
      (set_options [set_selected true optAlpha; optBeta; set_selected true optBeta]
         (scroll localPage))))); [vm_compute; reflexivity|]. vm_compute. discriminate.
  - rewrite (proj1 (proj2 (drawSelectedOptions_summary (scroll localPage))));
      vm_compute; reflexivity.
Defined.

Lemma click_multiple_toggles_witness :
  let s := scroll localPage in
  let s' := click 1 (click 0 s) in
  options s' = [set_selected true optAlpha; set_selected true optBeta] ∧
  map checked (rows s') = [true; true] ∧
  button s' = "Alpha, Beta".
Proof.
  assert (Hs : synced (click 0 (scroll localPage))) by (vm_compute; reflexivity).
  assert (Hm : multiple (click 0 (scroll localPage)) = true) by (vm_compute; reflexivity).
  assert (Ho : options (click 0 (scroll localPage)) !! 1%nat = Some optBeta)
    by (vm_compute; reflexivity).
  assert (H0 : ∀ (j : nat) (o' : Opt), options (click 0 (scroll localPage)) !! j = Some o' →
                 j < 1 → value o' ≠ value optBeta).
  { intros [|j] o' Hj Hlt; [|lia]. vm_compute in Hj. injection Hj as <-. discriminate. }
  destruct (click_multiple_toggles (click 0 (scroll localPage)) 1 optBeta
              Hs Hm Ho eq_refl H0) as (Ho' & (li & Hli & Hr) & Hb).
  split; [rewrite Ho'; vm_compute; reflexivity|].
  split; [|rewrite Hb, Ho'; vm_compute; reflexivity].
  rewrite Hr. vm_compute in Hli. injection Hli as <-. vm_compute. reflexivity.
Defined.

Lemma click_single_selects_witness :
  let s := init 1 [set_selected true optAlpha; optBeta] false in
  let s' := click 1 s in
  List.filter selected (options s') = [set_selected true optBeta] ∧
  options s' !! 1%nat = Some (set_selected true optBeta) ∧
  length (options s') = 2 ∧
  rows s' = rows s ∧
  button s' = "Beta".
Proof.
  assert (H0 : ∀ (j : nat) (o' : Opt),
                 options (init 1 [set_selected true optAlpha; optBeta] false) !! j = Some o' →
                 j < 1 → value o' ≠ value optBeta).
  { intros [|j] o' Hj Hlt; [|lia]. injection Hj as <-. discriminate. }
  exact (click_single_selects (init 1 [set_selected true optAlpha; optBeta] false) 1 optBeta
           (synced_init _ _ _) eq_refl eq_refl eq_refl H0).
Defined.

Lemma click_dashed_value_ignored_witness :
  let s := addOptions [{[ "text" := JStr "Gamma" ]}] (scroll localPage) in
  options s !! 2%nat = Some (mkOpt "-1" "Gamma" "" false) ∧ click 2 s = s.
Proof.
  split; [vm_compute; reflexivity|].
  apply (click_dashed_value_ignored
           (addOptions [{[ "text" := JStr "Gamma" ]}] (scroll localPage))
           2 (mkOpt "-1" "Gamma" "" false) "1").
  - vm_compute. reflexivity.
  - vm_compute. reflexivity.
  - reflexivity.
  - vm_compute. repeat constructor; discriminate.
Defined.

Lemma response_replaces_options_witness :
  let a := processAjaxParams (mkAjaxInput sampleRequest passThrough None None) in
  let parsed := [recordOf "1" "one"; recordOf "2" "two"] in
  let s' := scroll (respond a (Parsed parsed) (input "hello" (remotePage None None))) in
  map value (options s') = ["1"; "2"] ∧ take 300 parsed = parsed.
Proof.
  assert (Hm : multiple (scroll (input "hello" (remotePage None None))) = true)
    by (vm_compute; reflexivity).
  destruct (response_replaces_options
              (processAjaxParams (mkAjaxInput sampleRequest passThrough None None))
              [recordOf "1" "one"; recordOf "2" "two"]
              (input "hello" (remotePage None None)) Hm) as (Ho & _ & _ & _ & Hall).
  cbv zeta in *.
  split; [rewrite Ho; vm_compute; reflexivity|].
  apply Hall. cbn. lia.
Defined.

Lemma setLang_defines_every_message_witness :
  let s' := setLang {[ "error" := "Oops"; "hint" := "extra" ]} (scroll localPage) in
  is_Some (lang s' !! "results") ∧
  placeholder s' = "Rechercher un événement OL..." ∧
  statusText s' = "Commencez à taper pour lancer la recherche...".
Proof.
  destruct (setLang_defines_every_message {[ "error" := "Oops"; "hint" := "extra" ]}
              (scroll localPage)) as (_ & Hk & _ & Hs & _).
  split; [apply Hk; vm_compute; eauto|].
  destruct (Hs eq_refl) as [Hp Ht].
  split; [rewrite Hp|rewrite Ht]; vm_compute; reflexivity.
Defined.

Lemma lower_space (c : ascii) : is_space c = true → lower_ascii c = c.
Proof.
  destruct c as [[] [] [] [] [] [] [] []]; vm_compute; intros H; done.
Qed.

Lemma blank_typed (v : string) : blank v = true → typed v = "".
Proof.
  change (typed v) with (trimEnd (trimStart (asciiToLowerCase v))).
  induction v as [|c v IH]; [done|].
  cbn [blank asciiToLowerCase]. intros H. apply andb_true_iff in H as [Hc Hv].
  rewrite (lower_space c Hc). cbn [trimStart]. rewrite Hc. by apply IH.
Qed.

(** X9: on a widget without remote search, an input event whose value is
    empty or made of white space only displays every row. *)
Theorem blank_query_shows_all (v : string) (s : Scroll) :
  ajax s = None → blank v = true →
  Forall (λ li, hidden li = false) (rows (onInput v s)) ∧
  length (rows (onInput v s)) = length (rows s).
Proof.
  intros Ha Hv. rewrite onInput_local by done. cbn [rows set_rows].
  rewrite (blank_typed v Hv). split; [|by rewrite length_map].
  apply List.Forall_map, Forall_forall. intros r _.
  unfold filterRow. assert (H : includes (trim (toLowerCase (label r))) "" = true).
  { apply includes_spec. by exists "", (trim (toLowerCase (label r))). }
  by rewrite H.
Qed.

Lemma blank_query_shows_all_witness :
  let s := onInput "   " (onInput "zzz" (scroll localPage)) in
  map hidden (rows (onInput "zzz" (scroll localPage))) = [true; true] ∧
  Forall (λ li, hidden li = false) (rows s).
Proof.
  split; [vm_compute; reflexivity|].
  apply (blank_query_shows_all "   " (onInput "zzz" (scroll localPage))).
  - vm_compute. reflexivity.
  - reflexivity.
Defined.

Lemma longer_query_narrows_witness :
  rows (onInput "Be" (scroll localPage)) !! 0%nat = Some (mkRow "parchemin-1-a" "Alpha" false true) ∧
  hidden (mkRow "parchemin-1-a" "Alpha" false true) = true.
Proof.
  split; [vm_compute; reflexivity|].
  apply (longer_query_narrows "b" "Be" (scroll localPage) 0
           (mkRow "parchemin-1-a" "Alpha" false true)
           (mkRow "parchemin-1-a" "Alpha" false true));
    vm_compute; reflexivity.
Defined.

Lemma no_listener_no_call_witness :
  let params := mkAjaxInput sampleRequest passThrough None None in
  let p := addAjax params (load (init 1 [optAlpha; optBeta] true)) in
  let es := [AddSearch; Input "hello world"; Elapse 5000] in
  ajax (scroll p) = Some (processAjaxParams params) ∧
  statusText (scroll (run es p)) = "Recherche..." ∧
  fetches (run es p) = [].
Proof.
  split; [reflexivity|]. split; [vm_compute; reflexivity|].
  apply (no_listener_no_call
           (addAjax (mkAjaxInput sampleRequest passThrough None None)
                    (load (init 1 [optAlpha; optBeta] true)))
           [AddSearch; Input "hello world"; Elapse 5000]).
  - reflexivity.
  - reflexivity.
  - repeat constructor.
Defined.

Lemma keystroke_then_wait_witness :
  let params := mkAjaxInput sampleRequest passThrough None None in
  let a := processAjaxParams params in
  let p := remoteWidget 1 [optAlpha; optBeta] true [] [] params [] in
  fetches (elapse 999 (input " Hello" p)) = [] ∧
  fetches (elapse 1000 (input "hey" p)) = [] ∧
  fetches (elapse 1000 (input " Hello" p)) = [(a, "hello")].
Proof.
  assert (Hes : Forall (λ e : Event, keepsListeners e = true) []) by constructor.
  pose proof (proj1 (keystroke_then_wait 1 [optAlpha; optBeta] true [] []
                (mkAjaxInput sampleRequest passThrough None None) []
                " Hello" 999 Hes Hes Hes)) as H1.
  pose proof (proj1 (proj2 (keystroke_then_wait 1 [optAlpha; optBeta] true [] []
                (mkAjaxInput sampleRequest passThrough None None) []
                "hey" 1000 Hes Hes Hes))) as H2.
  pose proof (proj2 (proj2 (keystroke_then_wait 1 [optAlpha; optBeta] true [] []
                (mkAjaxInput sampleRequest passThrough None None) []
                " Hello" 1000 Hes Hes Hes))) as H3.
  cbv zeta. split; [|split].
  - rewrite H1 by lia. vm_compute. reflexivity.
  - rewrite H2; [vm_compute; reflexivity | lia | vm_compute; lia].
  - rewrite H3; [vm_compute; reflexivity | lia | vm_compute; lia].
Defined.

Lemma spaced_keystrokes_each_call_witness :
  let params := mkAjaxInput sampleRequest passThrough None None in
  let a := processAjaxParams params in
  fetches (elapse 1000 (typeBurst "hello" [(1000, "he"); (2500, "Help ")]
                          (remoteWidget 1 [optAlpha; optBeta] true [] [] params []))) =
  [(a, "hello"); (a, "help")].
Proof.
  assert (Hes : Forall (λ e : Event, keepsListeners e = true) []) by constructor.
  assert (Hm : Forall (λ e : nat * string, 1000 ≤ e.1) [(1000, "he"); (2500, "Help ")]).
  { repeat (apply Forall_cons; split; [cbn; lia|]). constructor. }
  cbv zeta.
  rewrite (spaced_keystrokes_each_call 1 [optAlpha; optBeta] true [] []
             (mkAjaxInput sampleRequest passThrough None None) []
             "hello" [(1000, "he"); (2500, "Help ")] 1000 Hes Hes Hes Hm (le_n 1000)).
  vm_compute. reflexivity.
Defined.

Lemma remote_search_round_trip_witness :
  let params := mkAjaxInput sampleRequest passThrough None None in
  let a := processAjaxParams params in
  let p1 := elapse 1000 (input "Hello" (remoteWidget 1 [optAlpha; optBeta] true [] [] params [])) in
  let p2 := respond a (Parsed [recordOf "1" "one"; recordOf "2" "two"]) p1 in
  map snd (fetches p1) = ["hello"] ∧
  map value (options (scroll p2)) = ["1"; "2"] ∧
  statusText (scroll p2) = "2 résultats trouvés.".
Proof.
  assert (Hes : Forall (λ e : Event, keepsListeners e = true) []) by constructor.
  assert (H4 : 4 ≤ strLength (typed "Hello")) by (vm_compute; lia).
  assert (Hm : minLength (processAjaxParams (mkAjaxInput sampleRequest passThrough None None))
               ≤ strLength (typed "Hello")) by (vm_compute; lia).
  assert (H300 : length [recordOf "1" "one"; recordOf "2" "two"] ≤ 300) by (cbn; lia).
  assert (Hmax : length [recordOf "1" "one"; recordOf "2" "two"] ≤
                 maxResults (processAjaxParams (mkAjaxInput sampleRequest passThrough None None)))
    by (vm_compute; lia).
  destruct (remote_search_round_trip 1 [optAlpha; optBeta] [] []
              (mkAjaxInput sampleRequest passThrough None None) []
              "Hello" [recordOf "1" "one"; recordOf "2" "two"] 1000
              Hes Hes Hes H4 Hm (le_n 1000) H300 Hmax)
    as (_ & Hf & _ & _ & Ho & Hst).
  cbv zeta in *.
  split; [rewrite Hf; vm_compute; reflexivity|].
  split; [rewrite Ho; vm_compute; reflexivity|].
  rewrite Hst. vm_compute. reflexivity.
Defined.

Lemma registry_calls_skip_unknown_node_witness :
  let r := Parchemin.init [selectNode "a"; divNode "b"] Parchemin.new in
  length (scrolls r) = 1 ∧
  Parchemin.addSearch (divNode "b") r = r ∧
  Parchemin.addAjax (divNode "b") (mkAjaxInput sampleRequest passThrough None None) r = r ∧
  Parchemin.setLang (divNode "b") ∅ r = r.
Proof.
  split; [reflexivity|].
  apply (registry_calls_skip_unknown_node (divNode "b")
           (mkAjaxInput sampleRequest passThrough None None) ∅
           (Parchemin.init [selectNode "a"; divNode "b"] Parchemin.new)).
  repeat constructor. cbn. discriminate.
Defined.

Lemma forward_first_match_only_witness :
  let r := Parchemin.init [selectNode ""; selectNode ""] Parchemin.new in
  let r' := Parchemin.addSearch (selectNode "") r in
  (search ∘ scroll ∘ page) <$> scrolls r' = [true; false].
Proof.
  assert (H0 : ∀ (i : nat) (e' : Entry),
            scrolls (Parchemin.init [selectNode ""; selectNode ""] Parchemin.new) !! i = Some e' →
            i < 0 → nodeId (node e') ≠ nodeId (selectNode "")) by (intros; lia).
  destruct (forward_first_match_only (onScroll addSearch) (selectNode "")
              (Parchemin.init [selectNode ""; selectNode ""] Parchemin.new) 0
              (mkEntry (selectNode "") (load (init 1 [optAlpha; optBeta] true)))
              eq_refl eq_refl H0) as (H1 & H2 & _).
  apply list_eq. intros [|[|k]]; rewrite list_lookup_fmap.
  - unfold Parchemin.addSearch. rewrite H1. reflexivity.
  - unfold Parchemin.addSearch. rewrite H2 by lia. reflexivity.
  - unfold Parchemin.addSearch. rewrite H2 by lia. reflexivity.
Defined.

Lemma chain_order_matters_witness :
  let params := mkAjaxInput sampleRequest passThrough None None in
  let r := Parchemin.init [selectNode "a"] Parchemin.new in
  (∃ e1, scrolls (Parchemin.addAjax (selectNode "a") params
                    (Parchemin.addSearch (selectNode "a") r)) !! 0%nat = Some e1 ∧
         remoteReady (processAjaxParams params) (page e1)) ∧
  (∃ e2, scrolls (Parchemin.addSearch (selectNode "a")
                    (Parchemin.addAjax (selectNode "a") params r)) !! 0%nat = Some e2 ∧
         search (scroll (page e2)) = true ∧
         ajax (scroll (page e2)) = Some (processAjaxParams params) ∧
         debounce (page e2) = []).
Proof.
  exact (chain_order_matters (selectNode "a")
           (mkAjaxInput sampleRequest passThrough None None)
           (Parchemin.init [selectNode "a"] Parchemin.new) 0
           (mkEntry (selectNode "a") (load (init 1 [optAlpha; optBeta] true)))
           eq_refl eq_refl eq_refl eq_refl).
Defined.

Lemma click_twice_restores_witness :
  let s := click 0 (scroll localPage) in
  let s'' := click 1 (click 1 s) in
  options s'' = options s ∧ button s'' = "Alpha".
Proof.
  assert (Hs : synced (click 0 (scroll localPage))) by (vm_compute; reflexivity).
  assert (Hm : multiple (click 0 (scroll localPage)) = true) by (vm_compute; reflexivity).
  assert (Ho : options (click 0 (scroll localPage)) !! 1%nat = Some optBeta)
    by (vm_compute; reflexivity).
  assert (H0 : ∀ (j : nat) (o' : Opt), options (click 0 (scroll localPage)) !! j = Some o' →
                 j < 1 → value o' ≠ value optBeta).
  { intros [|j] o' Hj Hlt; [|lia]. vm_compute in Hj. injection Hj as <-. discriminate. }
  destruct (click_twice_restores (click 0 (scroll localPage)) 1 optBeta
              Hs Hm Ho eq_refl H0) as (Ho' & _ & Hb).
  split; [exact Ho'|]. rewrite Hb. vm_compute. reflexivity.
Defined.

Lemma replaceChoices_discards_selection_witness :
  let s := click 0 (scroll localPage) in
  let s' := replaceChoices [recordOf "1" "one"] 1 s in
  map selected (options s) = [true; false] ∧
  Forall (λ o, selected o = false) (options s') ∧
  button s' = "Alpha".
Proof.
  assert (Hm : multiple (click 0 (scroll localPage)) = true) by (vm_compute; reflexivity).
  destruct (replaceChoices_discards_selection [recordOf "1" "one"] 1
              (click 0 (scroll localPage)) Hm) as (_ & H1 & _ & H4).
  cbv zeta in *.
  split; [vm_compute; reflexivity|]. split; [exact H1|].
  rewrite H4. vm_compute. reflexivity.
Defined.

Lemma button_written_by_click_and_setLang_only_witness :
  let p := set_scroll (click 0 (scroll (remotePage None None))) (remotePage None None) in
  button (scroll p) = "Alpha" ∧
  options (scroll (step p (Input "a"))) = [] ∧
  button (scroll (step p (Input "a"))) = "Alpha".
Proof.
  split; [vm_compute; reflexivity|]. split; [vm_compute; reflexivity|].
  rewrite (proj1 (button_written_by_click_and_setLang_only
    (set_scroll (click 0 (scroll (remotePage None None))) (remotePage None None))
    (Input "a") (λ k H, eq_ind (Input "a") (λ e, match e with Input _ => True | _ => False end)
                          I (Click k) H)
    (λ q H, eq_ind (Input "a") (λ e, match e with Input _ => True | _ => False end)
                          I (SetLang q) H))).
  vm_compute. reflexivity.
Defined.
